(** * The YouTube download service: a shallow embedding of
      [backend/app/services/downloader.py]

    The service wraps an external extraction tool (yt-dlp's [YoutubeDL]) and
    the pydantic [BaseModel] classes.  Both are libraries, not code of the
    repository; the embedding fixes their behaviour as follows.

    - The tool is an oracle ([Tool]): what [extract_info] returns or raises and
      which progress events [download] fires are inputs of every definition.
      [extract_info] returns a dictionary or [None]; its two falsy results,
      [None] and the empty dictionary, are told apart ([Falsy]) where the code
      goes on to call a method of the result.
    - A dictionary delivered by the tool is a record with one optional field
      per key the code reads.  For a key read with [d.get(k)] the field is
      [None] when the key is missing or holds Python's [None] (the code cannot
      tell the two apart); for a key read with [d[k]] or [d.get(k, default)]
      the field is [None] when the key is missing.
    - The tool passes its progress hooks dictionaries whose ['info_dict']
      entry is the info dictionary of the download ([HookEvent]).  The hook
      itself is defined on every event dictionary ([EventDict]): its first two
      lines stand outside the [try] and raise for an ['info_dict'] entry
      without a [get] and for an ['id'] that is truthy and not hashable.
    - Numbers are integers or floats; a float is the rational it denotes
      (finite, not NaN).  Printing a float and pydantic's validation of a
      float for an [int] field differ between library versions and are taken
      as parameters ([PythonFloats]).
    - A pydantic constructor raises [ValidationError] when a field declared
      without a default is not given (or is given [None]); keyword arguments
      that name no field are ignored; assigning an attribute that is not a
      declared field raises [ValueError].
    - [exn] covers the exceptions derived from Python's [Exception], which is
      what [except Exception] catches.
    - Coroutines run to completion where they are awaited; the event-loop
      plumbing around a callback invocation is not represented. *)

From Stdlib Require Import ZArith QArith String List Bool Permutation Sorted.
From stdpp Require Import base option list gmap strings pretty.

Local Open Scope Z_scope.
Local Open Scope string_scope.

(** ** Python values and exceptions *)

Inductive number : Type :=
| PInt (z : Z)
| PFloat (q : Q).

Class PythonFloats : Type := {
  (** [str(x)] for a float [x], as an f-string substitutes it *)
  float_str : Q -> string;
  (** pydantic's validation of a float for a field declared [int] *)
  float_as_int : Q -> option Z
}.

Inductive exn : Type :=
| KeyError (key : string)
| AttributeError (msg : string)
| TypeError (msg : string)
| ValueError (msg : string)
| ValidationError (model : string) (fields : list string)
| Exception (msg : string)
| ExceptionFrom (prefix : string) (cause : exn)  (* Exception(f"{prefix}{str(cause)}") *)
| ToolError (msg : string).                      (* raised by the tool or by a callback *)

Inductive result (A : Type) : Type :=
| Ok (a : A)
| Raise (e : exn).
Arguments Ok {A} a.
Arguments Raise {A} e.

Definition result_bind {A B} (r : result A) (k : A -> result B) : result B :=
  match r with
  | Ok a => k a
  | Raise e => Raise e
  end.

#[global] Instance result_mret : MRet result := fun A a => Ok a.
#[global] Instance result_mbind : MBind result := fun A B k r => result_bind r k.

Definition is_Ok {A} (r : result A) : bool :=
  match r with Ok _ => true | Raise _ => false end.

(** [d[k]] *)
Definition getitem {A} (key : string) (v : option A) : result A :=
  match v with
  | Some a => Ok a
  | None => Raise (KeyError key)
  end.

(** [v == s] and [v != s] for a string constant [s] *)
Definition py_eq (v : option string) (s : string) : bool :=
  match v with
  | Some x => String.eqb x s
  | None => false
  end.

Definition py_ne (v : option string) (s : string) : bool := negb (py_eq v s).

(** Truth value of a number, of a string and of an optional value *)
Definition number_truthy (n : number) : bool :=
  match n with
  | PInt z => negb (Z.eqb z 0)
  | PFloat q => negb (Qeq_bool q 0)
  end.

Definition str_truthy (s : string) : bool :=
  match s with
  | EmptyString => false
  | String _ _ => true
  end.

Definition truthy {A} (t : A -> bool) (v : option A) : bool :=
  match v with
  | Some a => t a
  | None => false
  end.

(** [a or b] *)
Definition py_or {A} (t : A -> bool) (a b : option A) : option A :=
  if truthy t a then a else b.

Definition to_Q (n : number) : Q :=
  match n with
  | PInt z => inject_Z z
  | PFloat q => q
  end.

Definition py_str `{PythonFloats} (n : number) : string :=
  match n with
  | PInt z => pretty z
  | PFloat q => float_str q
  end.

(** [sep.join(parts)] *)
Fixpoint str_join (sep : string) (parts : list string) : string :=
  match parts with
  | [] => EmptyString
  | [p] => p
  | p :: rest => p +:+ sep +:+ str_join sep rest
  end.

(** [s.endswith(suffix)] and [s.endswith((suffix1, suffix2, ...))] *)
Definition endswith (s suffix : string) : bool :=
  let n := String.length s in
  let k := String.length suffix in
  (k <=? n)%nat && String.eqb (substring (n - k) k s) suffix.

Definition endswith_any (s : string) (suffixes : list string) : bool :=
  existsb (endswith s) suffixes.

(** [os.path.join(a, b)] for a relative [b] *)
Definition path_join (a b : string) : string :=
  if String.eqb a EmptyString then b
  else if endswith a "/" then a +:+ b
  else a +:+ "/" +:+ b.

(** ** The Format Selector (get_video_info, the loop over info['formats']
       and the sort that follows it) *)

(** A raw format record of the tool. *)
Record RawFormat : Type := {
  r_format_id : option string;
  r_ext : option string;
  r_acodec : option string;
  r_vcodec : option string;
  r_height : option number;
  r_fps : option number;
  r_filesize : option number;
  r_tbr : option number
}.

(** The dictionary appended to [formats]. *)
Record FormatOption : Type := {
  format_id : string;
  ext : string;
  filesize : option number;
  format_note : string;
  tbr : option number;
  has_audio : bool;
  has_video : bool
}.

(** The condition of the [if] that guards the loop body. *)
Definition included (f : RawFormat) : bool :=
  (py_ne (r_acodec f) "none" && py_ne (r_vcodec f) "none")
  || (py_ne (r_vcodec f) "none" && py_eq (r_ext f) "mp4")
  || (py_ne (r_acodec f) "none" && py_eq (r_vcodec f) "none").

(** The list [format_note] just before it is joined. *)
Definition note_parts `{PythonFloats} (f : RawFormat) : list string :=
  (match r_height f with
   | Some h => if number_truthy h then [py_str h +:+ "p"] else []
   | None => []
   end)
  ++ (match r_fps f with
      | Some r => if number_truthy r then [py_str r +:+ "fps"] else []
      | None => []
      end)
  ++ (if py_ne (r_acodec f) "none" && py_ne (r_vcodec f) "none" then ["video+audio"]
      else if py_eq (r_acodec f) "none" then ["video-only"]
      else if py_eq (r_vcodec f) "none" then ["audio-only"]
      else []).

(** The dictionary built for one included record; [f['format_id']] and
    [f['ext']] raise KeyError when the key is missing. *)
Definition format_entry `{PythonFloats} (f : RawFormat) : result FormatOption :=
  let note := note_parts f in
  fid ← getitem "format_id" (r_format_id f);
  e ← getitem "ext" (r_ext f);
  Ok {| format_id := fid;
        ext := e;
        filesize := r_filesize f;
        format_note := str_join " " note;
        tbr := r_tbr f;
        has_audio := py_ne (r_acodec f) "none";
        has_video := py_ne (r_vcodec f) "none" |}.

(** The [for f in info.get('formats', [])] loop. *)
Fixpoint collect_formats `{PythonFloats} (fs : list RawFormat) : result (list FormatOption) :=
  match fs with
  | [] => Ok []
  | f :: rest =>
      if included f then
        o ← format_entry f;
        os ← collect_formats rest;
        Ok (o :: os)
      else collect_formats rest
  end.

(** The sort key [float('-inf') if x.get('tbr') is None else x['tbr']]:
    [None] stands for minus infinity. *)
Definition sort_key (o : FormatOption) : option Q := to_Q <$> tbr o.

(** [a >= b] on sort keys *)
Definition key_geb (a b : option Q) : bool :=
  match a, b with
  | _, None => true
  | None, Some _ => false
  | Some x, Some y => Qle_bool y x
  end.

(** [a == b] on sort keys *)
Definition key_eqb (a b : option Q) : bool := key_geb a b && key_geb b a.

(** [list.sort(key=sort_key, reverse=True)].  Python's sort is stable, also
    with [reverse=True]: the result is the one ordering of the list that is
    non-increasing in the key and keeps elements with equal keys in their
    original order.  An insertion sort that puts an element in front of the
    first one whose key is not greater computes it. *)
Fixpoint insert_desc (x : FormatOption) (l : list FormatOption) : list FormatOption :=
  match l with
  | [] => [x]
  | y :: l' =>
      if key_geb (sort_key x) (sort_key y) then x :: y :: l'
      else y :: insert_desc x l'
  end.

Definition sort_by_tbr (l : list FormatOption) : list FormatOption :=
  foldr insert_desc [] l.

Definition select_formats `{PythonFloats} (fs : list RawFormat) : result (list FormatOption) :=
  formats ← collect_formats fs;
  Ok (sort_by_tbr formats).

(** ** The pydantic models

    Each class is a record with the declared fields and a constructor [new]
    that takes one optional argument per field ([None]: the keyword is not
    given, or is given [None]) and validates as pydantic does: the fields
    that fail are reported together in one ValidationError, in declaration
    order. *)

Definition as_int `{PythonFloats} (n : number) : option Z :=
  match n with
  | PInt z => Some z
  | PFloat q => float_as_int q
  end.

(** A field declared [Optional[int]]: [None] is accepted, a number has to
    validate as an integer.  The outer [None] is a validation failure. *)
Definition optional_int `{PythonFloats} (v : option number) : option (option Z) :=
  match v with
  | None => Some None
  | Some n => Some <$> as_int n
  end.

Definition invalid {A} (field : string) (v : option A) : list string :=
  match v with
  | Some _ => []
  | None => [field]
  end.

Module VideoInfo.
Record t : Type := {
  id : string;
  title : string;
  duration : Z;
  thumbnail : string;
  formats : list FormatOption;
  webpage_url : string;
  description : option string;
  view_count : option Z;
  uploader : option string;
  playlist_index : option Z
}.

Definition new `{PythonFloats} (id title : option string) (duration : option number)
    (thumbnail : option string) (formats : option (list FormatOption))
    (webpage_url description : option string) (view_count : option number)
    (uploader : option string) (playlist_index : option Z) : result t :=
  let duration' := duration ≫= as_int in
  let view_count' := optional_int view_count in
  match id, title, duration', thumbnail, formats, webpage_url, view_count' with
  | Some i, Some t, Some d, Some th, Some fs, Some u, Some vc =>
      Ok {| id := i; title := t; duration := d; thumbnail := th; formats := fs;
            webpage_url := u; description := description; view_count := vc;
            uploader := uploader; playlist_index := playlist_index |}
  | _, _, _, _, _, _, _ =>
      Raise (ValidationError "VideoInfo"
               (invalid "id" id ++ invalid "title" title ++ invalid "duration" duration'
                ++ invalid "thumbnail" thumbnail ++ invalid "formats" formats
                ++ invalid "webpage_url" webpage_url ++ invalid "view_count" view_count'))
  end.
End VideoInfo.

Module PlaylistInfo.
Record t : Type := {
  id : string;
  title : string;
  uploader : option string;
  video_count : Z;
  videos : list VideoInfo.t;
  webpage_url : string
}.

Definition new (id title uploader : option string) (video_count : option Z)
    (videos : option (list VideoInfo.t)) (webpage_url : option string) : result t :=
  match id, title, video_count, videos, webpage_url with
  | Some i, Some t, Some n, Some vs, Some u =>
      Ok {| id := i; title := t; uploader := uploader; video_count := n;
            videos := vs; webpage_url := u |}
  | _, _, _, _, _ =>
      Raise (ValidationError "PlaylistInfo"
               (invalid "id" id ++ invalid "title" title ++ invalid "video_count" video_count
                ++ invalid "videos" videos ++ invalid "webpage_url" webpage_url))
  end.
End PlaylistInfo.

Module DownloadProgress.
Record t : Type := {
  status : string;
  video_id : string;
  title : string;
  downloaded_bytes : option Z;
  total_bytes : option Z;
  speed : option Q;
  eta : option Z;
  filename : option string;
  playlist_index : option Z;
  error : option string;
  fragment_index : option Z;
  fragment_count : option Z
}.

Definition new `{PythonFloats} (status video_id title : option string)
    (downloaded_bytes total_bytes speed eta : option number) (filename : option string)
    (playlist_index : option number) (error : option string)
    (fragment_index fragment_count : option number) : result t :=
  let db := optional_int downloaded_bytes in
  let tb := optional_int total_bytes in
  let et := optional_int eta in
  let pi := optional_int playlist_index in
  let fi := optional_int fragment_index in
  let fc := optional_int fragment_count in
  match status, video_id, title, db, tb, et, pi, fi, fc with
  | Some s, Some v, Some t, Some db', Some tb', Some et', Some pi', Some fi', Some fc' =>
      Ok {| status := s; video_id := v; title := t; downloaded_bytes := db';
            total_bytes := tb'; speed := to_Q <$> speed; eta := et'; filename := filename;
            playlist_index := pi'; error := error; fragment_index := fi';
            fragment_count := fc' |}
  | _, _, _, _, _, _, _, _, _ =>
      Raise (ValidationError "DownloadProgress"
               (invalid "status" status ++ invalid "video_id" video_id ++ invalid "title" title
                ++ invalid "downloaded_bytes" db ++ invalid "total_bytes" tb
                ++ invalid "eta" et ++ invalid "playlist_index" pi
                ++ invalid "fragment_index" fi ++ invalid "fragment_count" fc))
  end.
End DownloadProgress.

Module BatchDownloadProgress.
Record t : Type := {
  status : string;
  total_videos : Z;
  completed_videos : Z;
  current_video : option DownloadProgress.t;
  failed_videos : list (list (string * string));
  playlist_title : option string
}.

(** The names [__setattr__] accepts. *)
Definition fields : list string :=
  ["status"; "total_videos"; "completed_videos"; "current_video"; "failed_videos";
   "playlist_title"].

Definition new (status : option string) (total_videos completed_videos : option Z)
    (current_video : option DownloadProgress.t)
    (failed_videos : option (list (list (string * string))))
    (playlist_title : option string) : result t :=
  match status, total_videos, completed_videos with
  | Some s, Some n, Some c =>
      Ok {| status := s; total_videos := n; completed_videos := c;
            current_video := current_video;
            failed_videos := default [] failed_videos;
            playlist_title := playlist_title |}
  | _, _, _ =>
      Raise (ValidationError "BatchDownloadProgress"
               (invalid "status" status ++ invalid "total_videos" total_videos
                ++ invalid "completed_videos" completed_videos))
  end.

(** [obj.name = value] for a name outside [fields] *)
Definition setattr_unknown (name : string) : result unit :=
  if bool_decide (name ∈ fields) then Ok ()
  else Raise (ValueError ("BatchDownloadProgress object has no field " +:+ name)).

(** [obj.completed_videos += 1] *)
Definition incr_completed (b : t) : t :=
  {| status := status b; total_videos := total_videos b;
     completed_videos := completed_videos b + 1;
     current_video := current_video b; failed_videos := failed_videos b;
     playlist_title := playlist_title b |}.
End BatchDownloadProgress.

(** ** The external tool *)

(** A playlist entry in flat-enumeration mode. *)
Record Entry : Type := {
  e_id : option string;
  e_title : option string;
  e_duration : option number;
  e_thumbnail : option string;
  e_webpage_url : option string;
  e_uploader : option string
}.

(** The info record of [extract_info]; progress events carry one as
    [info_dict]. *)
Record Info : Type := {
  i_id : option string;
  i_title : option string;
  i_duration : option number;
  i_thumbnail : option string;
  i_webpage_url : option string;
  i_description : option string;
  i_view_count : option number;
  i_uploader : option string;
  i_formats : option (list RawFormat);
  i_entries : option (list (option Entry))
}.

(** The empty dictionary [{}] *)
Definition empty_info : Info :=
  {| i_id := None; i_title := None; i_duration := None; i_thumbnail := None;
     i_webpage_url := None; i_description := None; i_view_count := None;
     i_uploader := None; i_formats := None; i_entries := None |}.

(** The dictionary passed to a progress hook. *)
Record HookEvent : Type := {
  d_status : option string;
  d_info_dict : option Info;
  d_filename : option string;
  d_downloaded_bytes : option number;
  d_total_bytes : option number;
  d_total_bytes_estimate : option number;
  d_speed : option number;
  d_eta : option number;
  d_fragment_index : option number;
  d_fragment_count : option number
}.

(** The functions the code puts in ['progress_hooks']. *)
Inductive Hook : Type :=
| self_progress_hook.   (* the bound method self._progress_hook *)

(** The options dictionary [ydl_opts]; a field is [None] when the key is
    not set. *)
Record YdlOpts : Type := {
  opt_format : option string;
  opt_merge_output_format : option string;
  opt_outtmpl : option string;
  opt_progress_hooks : list Hook;
  opt_postprocessors : list (list (string * string));
  opt_quiet : option bool;
  opt_no_warnings : option bool;
  opt_extract_flat : option bool;
  opt_nocheckcertificate : option bool;
  opt_prefer_ffmpeg : option bool;
  opt_keepvideo : option bool;
  opt_postprocessor_args : list string;
  opt_download_ranges : option (Z * Z);   (* lambda info, ydl: [{start_time, end_time}] *)
  opt_force_keyframes_at_cuts : option bool
}.

(** The two falsy results of [extract_info]: [None] and the empty
    dictionary [{}]. *)
Inductive Falsy : Type :=
| PyNone
| EmptyDict.

(** One [YoutubeDL] instance.  [extract_info(url, download=False)] raises
    or returns a dictionary or [None]: [Some info] is a dictionary with at
    least one key, which is truthy; [None] is a falsy result, and
    [falsy_result] tells which of the two it is.  A test [if not info] cannot
    tell them apart; a call [info.get(...)] can.  [download([url])] passes
    the events to the progress hooks before it returns ([None]) or raises. *)
Record YoutubeDL : Type := {
  extract_info : string -> result (option Info);
  falsy_result : string -> Falsy;
  download : string -> list HookEvent * option exn
}.

(** The tool: the behaviour of the [n]-th instance created, given its
    options. *)
Definition Tool : Type := nat -> YdlOpts -> YoutubeDL.

(** ** The service object and what it does to its environment *)

(** A consumer's progress callback: given what was delivered so far and the
    progress object, it completes ([None]) or raises. *)
Definition Callback : Type :=
  list DownloadProgress.t -> DownloadProgress.t -> option exn.

(** The [callback] argument of batch_download_playlist. *)
Definition BatchCallback : Type := BatchDownloadProgress.t -> option exn.

(** A line written by [print(f"{prefix}{str(e)}")]. *)
Inductive Printed : Type :=
| PrintedError (prefix : string) (e : exn).

Record State : Type := {
  (* the YoutubeDownloadService object *)
  downloads_dir : string;
  progress_callbacks : gmap string Callback;
  (* the environment *)
  delivered : list DownloadProgress.t;             (* objects handed to progress callbacks *)
  batch_delivered : list BatchDownloadProgress.t;  (* objects handed to the batch callback *)
  created : list YdlOpts;                          (* options of the instances created *)
  stdout : list Printed
}.

Definition set_progress_callbacks (m : gmap string Callback) (s : State) : State :=
  {| downloads_dir := downloads_dir s; progress_callbacks := m;
     delivered := delivered s; batch_delivered := batch_delivered s;
     created := created s; stdout := stdout s |}.

Definition add_delivered (p : DownloadProgress.t) (s : State) : State :=
  {| downloads_dir := downloads_dir s; progress_callbacks := progress_callbacks s;
     delivered := delivered s ++ [p]; batch_delivered := batch_delivered s;
     created := created s; stdout := stdout s |}.

Definition add_batch_delivered (b : BatchDownloadProgress.t) (s : State) : State :=
  {| downloads_dir := downloads_dir s; progress_callbacks := progress_callbacks s;
     delivered := delivered s; batch_delivered := batch_delivered s ++ [b];
     created := created s; stdout := stdout s |}.

Definition add_created (o : YdlOpts) (s : State) : State :=
  {| downloads_dir := downloads_dir s; progress_callbacks := progress_callbacks s;
     delivered := delivered s; batch_delivered := batch_delivered s;
     created := created s ++ [o]; stdout := stdout s |}.

Definition add_stdout (l : Printed) (s : State) : State :=
  {| downloads_dir := downloads_dir s; progress_callbacks := progress_callbacks s;
     delivered := delivered s; batch_delivered := batch_delivered s;
     created := created s; stdout := stdout s ++ [l] |}.

(** The state and exception monad of the service's methods. *)
Definition M (A : Type) : Type := State -> result A * State.

#[global] Instance M_ret : MRet M := fun A a s => (Ok a, s).
#[global] Instance M_bind : MBind M := fun A B k m s =>
  match m s with
  | (Ok a, s') => k a s'
  | (Raise e, s') => (Raise e, s')
  end.

Definition raise {A} (e : exn) : M A := fun s => (Raise e, s).
Definition lift {A} (r : result A) : M A := fun s => (r, s).
Definition get_state : M State := fun s => (Ok s, s).
Definition modify (f : State -> State) : M unit := fun s => (Ok (), f s).

(** [try: m  except Exception as e: h e] *)
Definition try_except {A} (m : M A) (h : exn -> M A) : M A := fun s =>
  match m s with
  | (Ok a, s') => (Ok a, s')
  | (Raise e, s') => h e s'
  end.

Definition print (prefix : string) (e : exn) : M unit :=
  modify (add_stdout (PrintedError prefix e)).

(** [with YoutubeDL(ydl_opts) as ydl] *)
Definition new_YoutubeDL (tool : Tool) (ydl_opts : YdlOpts) : M YoutubeDL := fun s =>
  (Ok (tool (length (created s)) ydl_opts), add_created ydl_opts s).

(** [callback(progress)], run to completion *)
Definition call_callback (callback : Callback) (progress : DownloadProgress.t) : M unit :=
  fun s =>
    (match callback (delivered s) progress with
     | None => Ok ()
     | Some e => Raise e
     end, add_delivered progress s).

Definition call_batch_callback (callback : BatchCallback) (b : BatchDownloadProgress.t) : M unit :=
  fun s =>
    (match callback b with
     | None => Ok ()
     | Some e => Raise e
     end, add_batch_delivered b s).

(** A method body that also assigns local variables a [try] block shares with
    its [except] and [finally] clauses: the locals [L] travel with the state,
    so that an assignment made before an exception is still seen afterwards. *)
Definition Body (L A : Type) : Type := L * State -> result A * (L * State).

#[global] Instance Body_ret {L} : MRet (Body L) := fun A a ls => (Ok a, ls).
#[global] Instance Body_bind {L} : MBind (Body L) := fun A B k m ls =>
  match m ls with
  | (Ok a, ls') => k a ls'
  | (Raise e, ls') => (Raise e, ls')
  end.

(** A statement that leaves the locals alone *)
Definition run {L A} (m : M A) : Body L A := fun '(l, s) =>
  let '(r, s') := m s in (r, (l, s')).

Definition get_local {L} : Body L L := fun '(l, s) => (Ok l, (l, s)).
Definition set_local {L} (l : L) : Body L unit := fun '(_, s) => (Ok (), (l, s)).
Definition body_raise {L A} (e : exn) : Body L A := fun ls => (Raise e, ls).

Definition body_try_except {L A} (m : Body L A) (h : exn -> Body L A) : Body L A := fun ls =>
  match m ls with
  | (Ok a, ls') => (Ok a, ls')
  | (Raise e, ls') => h e ls'
  end.

(** Entering a body with the locals [l0]; the locals at its end are
    returned with its value. *)
Definition with_locals {L A} (l0 : L) (b : Body L A) : M (A * L) := fun s =>
  match b (l0, s) with
  | (Ok a, (l, s')) => (Ok (a, l), s')
  | (Raise e, (_, s')) => (Raise e, s')
  end.

(** ** get_video_info *)

Definition info_ydl_opts (extract_flat : bool) : YdlOpts :=
  {| opt_format := None; opt_merge_output_format := None; opt_outtmpl := None;
     opt_progress_hooks := []; opt_postprocessors := [];
     opt_quiet := Some true; opt_no_warnings := Some true;
     opt_extract_flat := Some extract_flat; opt_nocheckcertificate := Some true;
     opt_prefer_ffmpeg := None; opt_keepvideo := None; opt_postprocessor_args := [];
     opt_download_ranges := None; opt_force_keyframes_at_cuts := None |}.

Definition get_video_info `{PythonFloats} (tool : Tool) (url : string)
    (playlist_index : option Z) : M VideoInfo.t :=
  let ydl_opts := info_ydl_opts false in
  try_except
    (ydl ← new_YoutubeDL tool ydl_opts;
     info ← lift (extract_info ydl url);
     match info with
     | None => raise (Exception "No video information found")
     | Some info =>
         formats ← lift (select_formats (default [] (i_formats info)));
         id ← lift (getitem "id" (i_id info));
         lift (VideoInfo.new (Some id) (i_title info) (i_duration info) (i_thumbnail info)
                 (Some formats) (i_webpage_url info) (i_description info)
                 (i_view_count info) (i_uploader info) playlist_index)
     end)
    (fun e => raise e).

(** ** get_playlist_info *)

(** The loop [for idx, entry in enumerate(info['entries'], 1)], started at
    index [idx]. *)
Fixpoint playlist_entries `{PythonFloats} (idx : Z) (entries : list (option Entry))
    : result (list VideoInfo.t) :=
  match entries with
  | [] => Ok []
  | None :: rest => playlist_entries (idx + 1) rest
  | Some entry :: rest =>
      id ← getitem "id" (e_id entry);
      video_info ← VideoInfo.new (Some id) (e_title entry) (e_duration entry)
                     (e_thumbnail entry) (Some []) (e_webpage_url entry) None None
                     (e_uploader entry) (Some idx);
      videos ← playlist_entries (idx + 1) rest;
      Ok (video_info :: videos)
  end.

Definition get_playlist_info `{PythonFloats} (tool : Tool) (url : string) : M PlaylistInfo.t :=
  let ydl_opts := info_ydl_opts true in
  try_except
    (ydl ← new_YoutubeDL tool ydl_opts;
     info ← lift (extract_info ydl url);
     match info with
     | None => raise (Exception "No playlist information found")
     | Some info =>
         match i_entries info with
         | None => raise (Exception "URL is not a playlist")
         | Some raw_entries =>
             entries ← lift (playlist_entries 1 raw_entries);
             id ← lift (getitem "id" (i_id info));
             (* the call names id, title, uploader, description, webpage_url and
                videos; description is no field and video_count is not given *)
             lift (PlaylistInfo.new (Some id) (i_title info) (i_uploader info) None
                     (Some entries) (i_webpage_url info))
         end
     end)
    (fun e => _ ← print "Error fetching playlist info: " e; raise e).

(** ** _progress_hook *)

Definition intermediate_suffixes : list string := [".webm"; ".m4a"; ".mkv"; ".f"].

(** [d.get('info_dict', {})] for an event of the tool, where the entry is
    missing or a dictionary *)
Definition event_info (d : HookEvent) : Info := default empty_info (d_info_dict d).

(** [DownloadProgress(status='downloading', ...)] *)
Definition downloading_progress `{PythonFloats} (video_id : string) (d : HookEvent)
    : result DownloadProgress.t :=
  let info_dict := event_info d in
  DownloadProgress.new (Some "downloading") (Some video_id)
    (Some (default "Unknown" (i_title info_dict)))
    (d_downloaded_bytes d)
    (py_or number_truthy (d_total_bytes d) (d_total_bytes_estimate d))
    (d_speed d) (d_eta d) (d_filename d) None None
    (d_fragment_index d) (d_fragment_count d).

(** [DownloadProgress(status='finished', ...)] *)
Definition finished_progress `{PythonFloats} (video_id : string) (d : HookEvent)
    (filename : string) : result DownloadProgress.t :=
  let info_dict := event_info d in
  DownloadProgress.new (Some "finished") (Some video_id)
    (Some (default "Unknown" (i_title info_dict)))
    None None None None (Some filename) None None None None.

(** The body of the [try] block *)
Definition hook_try `{PythonFloats} (video_id : string) (callback : Callback) (d : HookEvent)
    : M unit :=
  status ← lift (getitem "status" (d_status d));
  if String.eqb status "downloading" then
    progress ← lift (downloading_progress video_id d);
    call_callback callback progress
  else if String.eqb status "finished" then
    let filename := default EmptyString (d_filename d) in
    if endswith_any filename intermediate_suffixes then mret ()
    else
      progress ← lift (finished_progress video_id d filename);
      call_callback callback progress
  else mret ().

(** The dictionaries the hook can be called with.  The tool passes a
    [HookEvent]; any other caller can pass a dictionary that breaks the
    tool's typing where the guard of the hook (the two lines before the
    [try]) reads it.  Of such a dictionary the hook reads nothing else, and of
    the offending value the guard asks only whether it has a [get], whether
    it is truthy and whether it is hashable. *)
Inductive EventDict : Type :=
| WellTyped (d : HookEvent)
    (* 'info_dict' is missing or a dictionary; its 'id' is missing, None or a string *)
| InfoDictWithoutGet (type_name : string)
    (* 'info_dict' holds a value without get: None, a number, a string, a list *)
| IdOfOtherType (type_name : string) (truth hashable : bool).
    (* 'info_dict' is a dictionary whose 'id' is neither None nor a string *)

Coercion WellTyped : HookEvent >-> EventDict.

Definition _progress_hook `{PythonFloats} (ev : EventDict) : M unit :=
  match ev with
  | WellTyped d =>
      let video_id := i_id (event_info d) in
      s ← get_state;
      match video_id with
      | None => mret ()
      | Some vid =>
          if negb (str_truthy vid) then mret ()
          else
            match progress_callbacks s !! vid with
            | None => mret ()
            | Some callback => try_except (hook_try vid callback d) (fun e => mret ())
            end
      end
  | InfoDictWithoutGet type_name =>
      (* d.get('info_dict', {}).get('id'), outside the try *)
      raise (AttributeError ("'" +:+ type_name +:+ "' object has no attribute 'get'"))
  | IdOfOtherType type_name truth hashable =>
      if negb truth then mret ()
      else if hashable then mret ()   (* the keys of the registry are strings *)
      else raise (TypeError ("unhashable type: '" +:+ type_name +:+ "'"))
  end.

(** ** download_video *)

Definition default_video_format : string :=
  "bestvideo[height<=1080][ext=mp4]+bestaudio[ext=m4a]/best[ext=mp4]/best".

(** The dictionary [ydl_opts] as it stands when the [try] block is entered. *)
Definition download_ydl_opts (downloads_dir : string) (format_id : option string)
    (extract_audio : bool) (start_time end_time : option Z) : YdlOpts :=
  let ranges :=
    match start_time, end_time with
    | Some st, Some en => Some (st, en)
    | _, _ => None
    end in
  let force := if ranges is Some _ then Some true else None in
  if extract_audio then
    {| opt_format := Some "bestaudio/best";
       opt_merge_output_format := None;
       opt_outtmpl := Some (path_join downloads_dir "%(title)s.%(ext)s");
       opt_progress_hooks := [self_progress_hook];
       opt_postprocessors :=
         [[("key", "FFmpegExtractAudio"); ("preferredcodec", "mp3");
           ("preferredquality", "192")]];
       opt_quiet := Some true; opt_no_warnings := None; opt_extract_flat := None;
       opt_nocheckcertificate := Some true; opt_prefer_ffmpeg := Some true;
       opt_keepvideo := Some false;
       opt_postprocessor_args := [];
       opt_download_ranges := ranges; opt_force_keyframes_at_cuts := force |}
  else
    {| opt_format := Some (if truthy str_truthy format_id
                           then default EmptyString format_id
                           else default_video_format);
       opt_merge_output_format := Some "mp4";
       opt_outtmpl := Some (path_join downloads_dir "%(title)s.%(ext)s");
       opt_progress_hooks := [self_progress_hook];
       opt_postprocessors := [[("key", "FFmpegVideoConvertor"); ("preferedformat", "mp4")]];
       opt_quiet := Some true; opt_no_warnings := None; opt_extract_flat := None;
       opt_nocheckcertificate := Some true; opt_prefer_ffmpeg := Some true;
       opt_keepvideo := Some true;
       opt_postprocessor_args := ["-c:v"; "copy"; "-c:a"; "aac"; "-strict"; "experimental"];
       opt_download_ranges := ranges; opt_force_keyframes_at_cuts := force |}.

Definition run_hook `{PythonFloats} (h : Hook) (d : HookEvent) : M unit :=
  match h with
  | self_progress_hook => _progress_hook d
  end.

(** The tool calls every hook of ['progress_hooks'] on every event; an
    exception that leaves a hook leaves [download]. *)
Fixpoint run_hooks `{PythonFloats} (hooks : list Hook) (d : HookEvent) : M unit :=
  match hooks with
  | [] => mret ()
  | h :: rest => _ ← run_hook h d; run_hooks rest d
  end.

Fixpoint run_events `{PythonFloats} (hooks : list Hook) (events : list HookEvent) : M unit :=
  match events with
  | [] => mret ()
  | d :: rest => _ ← run_hooks hooks d; run_events hooks rest
  end.

(** [await loop.run_in_executor(None, ydl.download, [url])] *)
Definition run_download `{PythonFloats} (ydl : YoutubeDL) (ydl_opts : YdlOpts) (url : string)
    : M unit :=
  let '(events, outcome) := download ydl url in
  _ ← run_events (opt_progress_hooks ydl_opts) events;
  match outcome with
  | None => mret ()
  | Some e => raise e
  end.

Definition register (video_id : string) (callback : Callback) (s : State) : State :=
  set_progress_callbacks (<[video_id := callback]> (progress_callbacks s)) s.

Definition deregister (video_id : string) (s : State) : State :=
  set_progress_callbacks (delete video_id (progress_callbacks s)) s.

(** The [try] block; its local variable is [video_id]. *)
Definition download_try `{PythonFloats} (tool : Tool) (ydl_opts : YdlOpts) (url : string)
    (callback : option Callback) : Body (option string) (option string) :=
  ydl ← run (new_YoutubeDL tool ydl_opts);
  info ← run (lift (extract_info ydl url));
  match info with
  | None =>
      match falsy_result ydl url with
      | PyNone =>
          (* None.get *)
          body_raise (AttributeError "'NoneType' object has no attribute 'get'")
      | EmptyDict =>
          (* {}.get('id') is None *)
          _ ← set_local None;
          body_raise (Exception "Could not get video ID")
      end
  | Some info =>
      let video_id := i_id info in
      _ ← set_local video_id;
      match video_id with
      | Some vid =>
          if str_truthy vid then
            _ ← (match callback with
                 | Some cb => run (modify (register vid cb))
                 | None => mret ()
                 end);
            _ ← run (run_download ydl ydl_opts url);
            mret (i_title info)
          else body_raise (Exception "Could not get video ID")
      | None => body_raise (Exception "Could not get video ID")
      end
  end.

(** The [finally] clause *)
Definition download_finally (video_id : option string) (s : State) : State :=
  match video_id with
  | Some vid =>
      if str_truthy vid && bool_decide (is_Some (progress_callbacks s !! vid))
      then deregister vid s
      else s
  | None => s
  end.

Definition download_video `{PythonFloats} (tool : Tool) (url : string)
    (format_id : option string) (extract_audio : bool) (start_time end_time : option Z)
    (callback : option Callback) : M (option string) := fun s =>
  let ydl_opts :=
    download_ydl_opts (downloads_dir s) format_id extract_audio start_time end_time in
  match download_try tool ydl_opts url callback (None, s) with
  | (Ok title, (video_id, s')) => (Ok title, download_finally video_id s')
  | (Raise e, (video_id, s')) =>
      (Raise (ExceptionFrom "Error downloading video: " e), download_finally video_id s')
  end.

(** ** batch_download_playlist *)

(** The parameters of download_video that a call may name. *)
Definition download_video_params : list string :=
  ["url"; "format_id"; "extract_audio"; "start_time"; "end_time"; "callback"].

(** The call [self.download_video(url, format_id=format_id, **{k: ...})] with
    the keywords [keywords]: Python raises TypeError before the body runs
    when a keyword names no parameter. *)
Definition call_download_video `{PythonFloats} (tool : Tool) (keywords : list string)
    (url : string) (format_id : option string) : M (option string) :=
  match filter (fun k => k ∉ download_video_params) keywords with
  | [] => download_video tool url format_id false None None None
  | k :: _ =>
      raise (TypeError ("download_video() got an unexpected keyword argument '" +:+ k +:+ "'"))
  end.

(** The locals of the loop: [batch_progress] and [downloaded_files]. *)
Definition BatchLocals : Type := BatchDownloadProgress.t * list (option string).

(** The [try] block of one iteration.  The nested function [progress_hook]
    is only defined and named in the call of download_video. *)
Definition batch_try `{PythonFloats} (tool : Tool) (format_id : option string)
    (callback : option BatchCallback) (video : VideoInfo.t) : Body BatchLocals unit :=
  _ ← run (lift (BatchDownloadProgress.setattr_unknown "current_video_title"));
  _ ← run (lift (BatchDownloadProgress.setattr_unknown "current_video_progress"));
  '(batch_progress, _) ← get_local;
  _ ← (match callback with
       | Some cb => run (call_batch_callback cb batch_progress)
       | None => mret ()
       end);
  file_path ← run (call_download_video tool ["format_id"; "progress_hooks"]
                     (VideoInfo.webpage_url video) format_id);
  '(batch_progress, downloaded_files) ← get_local;
  let batch_progress := BatchDownloadProgress.incr_completed batch_progress in
  _ ← set_local (batch_progress, downloaded_files);
  _ ← set_local (batch_progress, (downloaded_files ++ [file_path])%list);
  match callback with
  | Some cb => run (call_batch_callback cb batch_progress)
  | None => mret ()
  end.

(** [for idx, video in enumerate(playlist_info.videos, 1)] *)
Fixpoint batch_loop `{PythonFloats} (tool : Tool) (format_id : option string)
    (callback : option BatchCallback) (videos : list VideoInfo.t) : Body BatchLocals unit :=
  match videos with
  | [] => mret ()
  | video :: rest =>
      _ ← body_try_except (batch_try tool format_id callback video)
            (fun e =>
               run (print ("Error downloading video " +:+ VideoInfo.title video +:+ ": ") e));
      batch_loop tool format_id callback rest
  end.

(** What follows [playlist_info = await self.get_playlist_info(url)] inside
    the outer [try]. *)
Definition batch_after_fetch `{PythonFloats} (tool : Tool) (format_id : option string)
    (callback : option BatchCallback) (playlist_info : PlaylistInfo.t)
    : M (list (option string)) :=
  let total_videos := Z.of_nat (length (PlaylistInfo.videos playlist_info)) in
  (* the call names total_videos, completed_videos and four names that are
     no fields; status is not given *)
  batch_progress ← lift (BatchDownloadProgress.new None (Some total_videos) (Some 0)
                           None None None);
  '(_, (_, downloaded_files)) ←
    with_locals (batch_progress, [])
      (batch_loop tool format_id callback (PlaylistInfo.videos playlist_info));
  mret downloaded_files.

Definition batch_download_playlist `{PythonFloats} (tool : Tool) (url : string)
    (format_id : option string) (callback : option BatchCallback)
    : M (list (option string)) :=
  try_except
    (playlist_info ← get_playlist_info tool url;
     batch_after_fetch tool format_id callback playlist_info)
    (fun e => _ ← print "Error in batch download: " e; raise e).

(** * The HTTP routes that call the info methods
      ([backend/app/api/routes.py], get_video_info and get_playlist_info) *)

(** The text of a pydantic ValidationError differs between library versions
    and is a parameter. *)
Class ExceptionText : Type := {
  validation_error_str : string -> list string -> string
}.

(** [str(e)] *)
Fixpoint exn_str `{ExceptionText} (e : exn) : string :=
  match e with
  | KeyError key => "'" +:+ key +:+ "'"
  | AttributeError msg => msg
  | TypeError msg => msg
  | ValueError msg => msg
  | ValidationError model fields => validation_error_str model fields
  | Exception msg => msg
  | ExceptionFrom prefix cause => prefix +:+ exn_str cause
  | ToolError msg => msg
  end.

(** [needle in haystack] on strings *)
Fixpoint contains (needle haystack : string) : bool :=
  String.prefix needle haystack
  || match haystack with
     | EmptyString => false
     | String _ rest => contains needle rest
     end.

(** What a route handler does: it returns a value or raises HTTPException. *)
Inductive response (A : Type) : Type :=
| Returned (a : A)
| HTTPException (status_code : Z) (detail : string).
Arguments Returned {A} a.
Arguments HTTPException {A} status_code detail.

Module routes.
(** [GET /video/info] *)
Definition get_video_info `{PythonFloats} `{ExceptionText} (tool : Tool) (url : string)
    : State -> response VideoInfo.t * State := fun s =>
  match get_video_info tool url None s with
  | (Ok video_info, s') => (Returned video_info, s')
  | (Raise e, s') =>
      let s'' := add_stdout (PrintedError "Error in get_video_info: " e) s' in
      if contains "No video information found" (exn_str e) then
        (HTTPException 404 "Video not found", s'')
      else if contains "URL is not accessible" (exn_str e) then
        (HTTPException 400 "Invalid or inaccessible URL", s'')
      else
        (HTTPException 500 "Failed to fetch video information", s'')
  end.

(** [GET /playlist/info]; [Returned] is what the handler hands to the
    framework. *)
Definition get_playlist_info `{PythonFloats} `{ExceptionText} (tool : Tool) (url : string)
    : State -> response PlaylistInfo.t * State := fun s =>
  match get_playlist_info tool url s with
  | (Ok playlist_info, s') => (Returned playlist_info, s')
  | (Raise e, s') =>
      let s'' := add_stdout (PrintedError "Error in get_playlist_info: " e) s' in
      if contains "URL is not a playlist" (exn_str e) then
        (HTTPException 400 "The provided URL is not a playlist", s'')
      else if contains "No playlist information found" (exn_str e) then
        (HTTPException 404 "Playlist not found", s'')
      else
        (HTTPException 500 "Failed to fetch playlist information", s'')
  end.
End routes.

(** * The vocabulary of the specification

    The definitions below follow the words of the specification; the
    theorems compare them with the code above. *)

(** A codec is absent when the record holds the tool's marker ['none']. *)
Definition codec_absent (c : option string) : Prop := c = Some "none".

#[global] Instance codec_absent_dec c : Decision (codec_absent c).
Proof. unfold codec_absent. apply _. Defined.

(** The inclusion rule of the Format Selector: combined, or video in the
    canonical container, or audio-only. *)
Definition inclusion_rule (f : RawFormat) : Prop :=
  (¬ codec_absent (r_acodec f) ∧ ¬ codec_absent (r_vcodec f))
  ∨ (¬ codec_absent (r_vcodec f) ∧ r_ext f = Some "mp4")
  ∨ (¬ codec_absent (r_acodec f) ∧ codec_absent (r_vcodec f)).

#[global] Instance inclusion_rule_dec f : Decision (inclusion_rule f).
Proof. unfold inclusion_rule. apply _. Defined.

(** The same rule read off an output entry. *)
Definition entry_rule (o : FormatOption) : Prop :=
  (has_audio o = true ∧ has_video o = true)
  ∨ (has_video o = true ∧ ext o = "mp4")
  ∨ (has_audio o = true ∧ has_video o = false).

(** A raw record as the tool delivers it carries [format_id] and [ext]. *)
Definition carries_ids (f : RawFormat) : Prop :=
  is_Some (r_format_id f) ∧ is_Some (r_ext f).

(** [o] is the output entry of the raw record [f]. *)
Definition entry_of `{PythonFloats} (f : RawFormat) (o : FormatOption) : Prop :=
  format_entry f = Ok o.

(** [a >= b] on bitrates, an absent bitrate being minus infinity *)
Definition tbr_ge (a b : option number) : Prop :=
  match a, b with
  | _, None => True
  | None, Some _ => False
  | Some x, Some y => (to_Q y <= to_Q x)%Q
  end.

(** The order of the ranking: [a] may stand before [b] *)
Definition ranked (a b : FormatOption) : Prop := tbr_ge (tbr a) (tbr b).

(** Equal bitrates (both absent, or the same number) *)
Definition same_tbr (a b : option number) : bool :=
  key_eqb (to_Q <$> a) (to_Q <$> b).

(** The stream composition of a record: combined, video-only, audio-only *)
Definition classification (f : RawFormat) : string :=
  if decide (codec_absent (r_acodec f)) then "video-only"
  else if decide (codec_absent (r_vcodec f)) then "audio-only"
  else "video+audio".

Definition with_unit `{PythonFloats} (unit : string) (v : option number) : list string :=
  match v with
  | Some n => [py_str n +:+ unit]
  | None => []
  end.

(** The note as the specification composes it: height and fps whenever
    they are present. *)
Definition claimed_format_note `{PythonFloats} (f : RawFormat) : string :=
  str_join " " (with_unit "p" (r_height f) ++ with_unit "fps" (r_fps f)
                ++ [classification f]).

(** A number that is present and not zero *)
Definition nonzero (v : option number) : option number :=
  match v with
  | Some n => if number_truthy n then Some n else None
  | None => None
  end.

(** The note with height and fps only when they are present and not zero. *)
Definition format_note_of `{PythonFloats} (f : RawFormat) : string :=
  str_join " " (with_unit "p" (nonzero (r_height f)) ++ with_unit "fps" (nonzero (r_fps f))
                ++ [classification f]).

(** A float validates as an integer exactly when it is integral; floats
    print as a fraction.  One instance of the parameters, for the examples. *)
Definition sample_floats : PythonFloats :=
  {| float_str := fun q => pretty (Qnum q) +:+ "/" +:+ pretty (Zpos (Qden q));
     float_as_int := fun q => if Pos.eqb (Qden q) 1 then Some (Qnum q) else None |}.

(** Raw records for the examples: a combined format, video-only formats in
    mp4 and in webm, audio-only formats with and without a bitrate, a
    storyboard, and a combined format whose height is zero. *)
Definition raw (fid e a v : string) (h r t : option number) : RawFormat :=
  {| r_format_id := Some fid; r_ext := Some e; r_acodec := Some a; r_vcodec := Some v;
     r_height := h; r_fps := r; r_filesize := None; r_tbr := t |}.

Definition zero_height_format : RawFormat :=
  raw "22" "mp4" "mp4a.40.2" "avc1.64001F" (Some (PInt 0)) None (Some (PInt 4000)).

Definition sample_formats : list RawFormat :=
  [ raw "18" "mp4" "mp4a.40.2" "avc1.42001E" (Some (PInt 360)) (Some (PInt 30))
      (Some (PFloat (1137 # 2)));
    raw "137" "mp4" "none" "avc1.640028" (Some (PInt 1080)) (Some (PInt 30))
      (Some (PInt 4000));
    raw "248" "webm" "none" "vp9" (Some (PInt 1080)) (Some (PInt 30)) (Some (PInt 3000));
    raw "140" "m4a" "mp4a.40.2" "none" None None None;
    raw "251" "webm" "opus" "none" None None (Some (PInt 130));
    raw "sb0" "mhtml" "none" "none" None None None;
    zero_height_format ].

(** The state after the objects [new] were handed to progress callbacks *)
Definition deliver (new : list DownloadProgress.t) (s : State) : State :=
  {| downloads_dir := downloads_dir s; progress_callbacks := progress_callbacks s;
     delivered := delivered s ++ new; batch_delivered := batch_delivered s;
     created := created s; stdout := stdout s |}.

Definition is_finished (p : DownloadProgress.t) : bool :=
  String.eqb (DownloadProgress.status p) "finished".

(** The filenames of the 'finished' objects among [ps], in order *)
Definition finished_filenames (ps : list DownloadProgress.t) : list (option string) :=
  DownloadProgress.filename <$> filter (λ p, is_finished p = true) ps.

(** The filename a 'finished' event is forwarded with: the event names an
    identifier with a registered callback and its filename has none of the
    suffixes the hook skips. *)
Definition forwarded_filename (registry : gmap string Callback) (d : HookEvent) : option string :=
  match i_id (event_info d), d_status d with
  | Some vid, Some status =>
      let filename := default EmptyString (d_filename d) in
      if str_truthy vid && bool_decide (is_Some (registry !! vid))
         && String.eqb status "finished"
         && negb (endswith_any filename intermediate_suffixes)
      then Some filename
      else None
  | _, _ => None
  end.

(** The identifier download_video resolves for [url], if any: the tool
    returns a record with a non-empty id. *)
Definition resolved_video_id (ydl : YoutubeDL) (url : string) : option string :=
  match extract_info ydl url with
  | Ok (Some info) =>
      match i_id info with
      | Some vid => if str_truthy vid then Some vid else None
      | None => None
      end
  | _ => None
  end.

(** The claim that a consumer sees at most one 'finished' object per
    download, as the specification words it. *)
Definition finished_at_most_once : Prop :=
  ∀ (F : PythonFloats) (tool : Tool) (url : string) (format_id : option string)
    (extract_audio : bool) (start_time end_time : option Z) (cb : Callback) (s : State),
    (length (finished_filenames
               (delivered (download_video tool url format_id extract_audio start_time
                             end_time (Some cb) s).2))
     ≤ length (finished_filenames (delivered s)) + 1)%nat.

(** Objects for the examples: a service that has not registered anything,
    a video record, progress events for it, and tools that return the record
    and fire a given list of events. *)
Definition fresh_service : State :=
  {| downloads_dir := "/home/user/Downloads/youtube"; progress_callbacks := ∅;
     delivered := []; batch_delivered := []; created := []; stdout := [] |}.

Definition sample_info : Info :=
  {| i_id := Some "dQw4w9WgXcQ"; i_title := Some "Sample"; i_duration := Some (PInt 212);
     i_thumbnail := Some "https://i.ytimg.com/vi/dQw4w9WgXcQ/default.jpg";
     i_webpage_url := Some "https://www.youtube.com/watch?v=dQw4w9WgXcQ";
     i_description := None; i_view_count := None; i_uploader := Some "Uploader";
     i_formats := Some sample_formats; i_entries := None |}.

Definition downloading (percent : Z) (filename : string) : HookEvent :=
  {| d_status := Some "downloading"; d_info_dict := Some sample_info;
     d_filename := Some filename; d_downloaded_bytes := Some (PInt percent);
     d_total_bytes := Some (PInt 100); d_total_bytes_estimate := None;
     d_speed := Some (PFloat (3 # 2)); d_eta := Some (PInt 7);
     d_fragment_index := None; d_fragment_count := None |}.

Definition finished (filename : string) : HookEvent :=
  {| d_status := Some "finished"; d_info_dict := Some sample_info;
     d_filename := Some filename; d_downloaded_bytes := Some (PInt 100);
     d_total_bytes := Some (PInt 100); d_total_bytes_estimate := None;
     d_speed := None; d_eta := None; d_fragment_index := None; d_fragment_count := None |}.

Definition firing (events : list HookEvent) (outcome : option exn) : Tool :=
  fun _ _ => {| extract_info := fun _ => Ok (Some sample_info);
                falsy_result := fun _ => PyNone;
                download := fun _ => (events, outcome) |}.

(** The event sequence of the specification's example *)
Definition example_events : list HookEvent :=
  [downloading 10 "intermediate.webm"; downloading 55 "intermediate.webm";
   finished "intermediate.webm"; downloading 90 "final.mp4"; finished "final.mp4"].

(** The events of a download with the default format, which selects a video
    stream and an audio stream: the tool downloads the two parts one after
    the other and merges them into Sample.mp4 afterwards, which is no
    download and fires no progress event. *)
Definition premerge_events : list HookEvent :=
  [downloading 50 "Sample.f137.mp4"; finished "Sample.f137.mp4";
   downloading 50 "Sample.f140.m4a"; finished "Sample.f140.m4a"].

(** Two downloaded files, as for a format selector that names two formats
    with different extensions *)
Definition two_files : list HookEvent :=
  [finished "Sample.mp4"; finished "Sample.3gp"].

Definition quiet_callback : Callback := fun _ _ => None.
Definition failing_callback : Callback := fun _ _ => Some (ToolError "connection closed").

(** The 1-based positions, counted from [idx], of the entries that are not
    empty *)
Fixpoint surviving_positions (idx : Z) (entries : list (option Entry)) : list Z :=
  match entries with
  | [] => []
  | None :: rest => surviving_positions (idx + 1) rest
  | Some _ :: rest => idx :: surviving_positions (idx + 1) rest
  end.

(** A playlist for the examples: every entry carries all the fields
    VideoInfo requires; the tool returns the playlist record in flat mode and
    a video record otherwise, and its download fails for one URL only. *)
Definition entry (n : string) : Entry :=
  {| e_id := Some ("v" +:+ n); e_title := Some ("Video " +:+ n);
     e_duration := Some (PInt 60);
     e_thumbnail := Some ("https://i.ytimg.com/vi/v" +:+ n +:+ "/default.jpg");
     e_webpage_url := Some ("https://www.youtube.com/watch?v=v" +:+ n);
     e_uploader := Some "Uploader" |}.

Definition playlist_record (entries : list (option Entry)) : Info :=
  {| i_id := Some "PL1"; i_title := Some "Mix"; i_duration := None; i_thumbnail := None;
     i_webpage_url := Some "https://www.youtube.com/playlist?list=PL1";
     i_description := Some "A playlist"; i_view_count := None;
     i_uploader := Some "Uploader"; i_formats := None; i_entries := Some entries |}.

Definition video_record (url : string) : Info :=
  {| i_id := Some url; i_title := Some ("Title of " +:+ url); i_duration := Some (PInt 60);
     i_thumbnail := None; i_webpage_url := Some url; i_description := None;
     i_view_count := None; i_uploader := None; i_formats := None; i_entries := None |}.

Definition playlist_tool (entries : list (option Entry)) (failing_url : string) : Tool :=
  fun _ ydl_opts =>
    {| extract_info := fun url =>
         match opt_extract_flat ydl_opts with
         | Some true => Ok (Some (playlist_record entries))
         | _ => Ok (Some (video_record url))
         end;
       falsy_result := fun _ => PyNone;
       download := fun url =>
         ([], if String.eqb url failing_url then Some (ToolError "download failed") else None) |}.

Definition five_entries : list (option Entry) :=
  [Some (entry "1"); Some (entry "2"); Some (entry "3"); Some (entry "4"); Some (entry "5")].

Definition seven_entries : list (option Entry) :=
  [Some (entry "1"); None; Some (entry "3"); Some (entry "4"); None; Some (entry "6");
   Some (entry "7")].

(** The word of a note that the flags of an entry determine *)
Definition stream_word (has_audio has_video : bool) : string :=
  if has_audio then (if has_video then "video+audio" else "audio-only") else "video-only".

(** A playlist entry that carries what VideoInfo requires *)
Definition complete_entry `{PythonFloats} (e : Entry) : Prop :=
  is_Some (e_id e) ∧ is_Some (e_title e) ∧ is_Some (e_duration e ≫= as_int)
  ∧ is_Some (e_thumbnail e) ∧ is_Some (e_webpage_url e).

(** A video record that carries what VideoInfo requires *)
Definition complete_info `{PythonFloats} (info : Info) : Prop :=
  is_Some (i_id info) ∧ is_Some (i_title info) ∧ is_Some (i_duration info ≫= as_int)
  ∧ is_Some (i_thumbnail info) ∧ is_Some (i_webpage_url info)
  ∧ is_Some (optional_int (i_view_count info)).

(** The status codes and details the two info routes can answer with *)
Definition video_info_errors : list (Z * string) :=
  [(404, "Video not found"); (400, "Invalid or inaccessible URL");
   (500, "Failed to fetch video information")].

Definition playlist_info_errors : list (Z * string) :=
  [(400, "The provided URL is not a playlist"); (404, "Playlist not found");
   (500, "Failed to fetch playlist information")].

(** One text for validation errors, for the examples *)
Definition sample_text : ExceptionText :=
  {| validation_error_str := fun model fields =>
       "validation error for " +:+ model +:+ ": " +:+ str_join ", " fields |}.

(** A tool whose every call fails with the error [e], and a tool that finds
    nothing *)
Definition failing_tool (e : exn) : Tool :=
  fun _ _ => {| extract_info := fun _ => Raise e; falsy_result := fun _ => PyNone;
                download := fun _ => ([], Some e) |}.

Definition empty_tool : Tool :=
  fun _ _ => {| extract_info := fun _ => Ok None; falsy_result := fun _ => PyNone;
                download := fun _ => ([], None) |}.

(** The sample records through the Format Selector *)
Definition sample_selected : list FormatOption :=
  Eval vm_compute in
    match @select_formats sample_floats sample_formats with
    | Ok out => out
    | Raise _ => []
    end.

(** A tool that returns the sample video record and fires no event *)
Definition sample_tool : Tool := firing [] None.

(** The entries that are not empty, each with its 1-based position counted
    from [idx] *)
Fixpoint numbered (idx : Z) (entries : list (option Entry)) : list (Z * Entry) :=
  match entries with
  | [] => []
  | None :: rest => numbered (idx + 1) rest
  | Some e :: rest => (idx, e) :: numbered (idx + 1) rest
  end.

(** The VideoInfo [v] is built from the entry [e] at position [pos]. *)
Definition video_of_entry (pe : Z * Entry) (v : VideoInfo.t) : Prop :=
  VideoInfo.playlist_index v = Some pe.1
  ∧ e_id pe.2 = Some (VideoInfo.id v)
  ∧ e_title pe.2 = Some (VideoInfo.title v)
  ∧ e_thumbnail pe.2 = Some (VideoInfo.thumbnail v)
  ∧ e_webpage_url pe.2 = Some (VideoInfo.webpage_url v)
  ∧ VideoInfo.uploader v = e_uploader pe.2
  ∧ VideoInfo.formats v = []
  ∧ VideoInfo.description v = None
  ∧ VideoInfo.view_count v = None.

(** The videos the loop builds for the playlist of seven entries *)
Definition seven_videos : list VideoInfo.t :=
  Eval vm_compute in
    match @playlist_entries sample_floats 1 seven_entries with
    | Ok videos => videos
    | Raise _ => []
    end.

(** The object the hook builds from an event for the identifier [vid], if
    any *)
Definition forwarded_object `{PythonFloats} (vid : string) (d : HookEvent)
    : option DownloadProgress.t :=
  match d_status d with
  | Some status =>
      if String.eqb status "downloading" then
        match downloading_progress vid d with
        | Ok p => Some p
        | Raise _ => None
        end
      else if String.eqb status "finished" then
        let filename := default EmptyString (d_filename d) in
        if endswith_any filename intermediate_suffixes then None
        else match finished_progress vid d filename with
             | Ok p => Some p
             | Raise _ => None
             end
      else None
  | None => None
  end.

(** The numbers of a 'downloading' event that DownloadProgress declares as
    integers all validate. *)
Definition numbers_validate `{PythonFloats} (d : HookEvent) : Prop :=
  is_Some (optional_int (d_downloaded_bytes d))
  ∧ is_Some (optional_int (py_or number_truthy (d_total_bytes d) (d_total_bytes_estimate d)))
  ∧ is_Some (optional_int (d_eta d))
  ∧ is_Some (optional_int (d_fragment_index d))
  ∧ is_Some (optional_int (d_fragment_count d)).

(** Events for the examples: an error report, and a 'downloading' event
    without total_bytes whose estimate is a float *)
Definition error_event : HookEvent :=
  {| d_status := Some "error"; d_info_dict := Some sample_info;
     d_filename := Some "Sample.mp4"; d_downloaded_bytes := None;
     d_total_bytes := None; d_total_bytes_estimate := None;
     d_speed := None; d_eta := None; d_fragment_index := None; d_fragment_count := None |}.

Definition estimated_event : HookEvent :=
  {| d_status := Some "downloading"; d_info_dict := Some sample_info;
     d_filename := Some "Sample.mp4.part"; d_downloaded_bytes := Some (PInt 1024);
     d_total_bytes := None; d_total_bytes_estimate := Some (PFloat (4096 # 1));
     d_speed := Some (PFloat (3 # 2)); d_eta := Some (PInt 7);
     d_fragment_index := Some (PInt 1); d_fragment_count := Some (PInt 4) |}.

(** A service with a callback registered for the sample video *)
Definition listening_service : State := register "dQw4w9WgXcQ" failing_callback fresh_service.

(** The objects one call of the hook hands over, given the registry *)
Definition hook_objects `{PythonFloats} (registry : gmap string Callback) (d : HookEvent)
    : list DownloadProgress.t :=
  match i_id (event_info d) with
  | Some vid =>
      if str_truthy vid && bool_decide (is_Some (registry !! vid))
      then option_list (forwarded_object vid d)
      else []
  | None => []
  end.

(** The result of download_video after a failure with the cause [e] *)
Definition download_failed {A} (e : exn) : result A :=
  Raise (ExceptionFrom "Error downloading video: " e).

(** A tool that returns a video record without id *)
Definition anonymous_tool : Tool :=
  fun _ _ =>
    {| extract_info := fun _ =>
         Ok (Some {| i_id := None; i_title := Some "Untitled"; i_duration := None;
                     i_thumbnail := None; i_webpage_url := None; i_description := None;
                     i_view_count := None; i_uploader := None; i_formats := None;
                     i_entries := None |});
       falsy_result := fun _ => PyNone;
       download := fun _ => ([], None) |}.

(** A tool whose extract_info returns the empty dictionary *)
Definition blank_tool : Tool :=
  fun _ _ => {| extract_info := fun _ => Ok None; falsy_result := fun _ => EmptyDict;
                download := fun _ => ([], None) |}.

(** The event dictionaries on which the guard of the hook is defined: the
    'info_dict' entry is missing or has a [get], and the 'id' is missing,
    None, a string, or another value that is falsy or hashable. *)
Definition guard_defined (ev : EventDict) : bool :=
  match ev with
  | WellTyped _ => true
  | InfoDictWithoutGet _ => false
  | IdOfOtherType _ truth hashable => negb truth || hashable
  end.

(** The claim that the hook returns normally for every event dictionary, as
    the specification words it. *)
Definition hook_never_raises : Prop :=
  ∀ (F : PythonFloats) (ev : EventDict) (s : State),
    ∃ s', _progress_hook ev s = (Ok (), s').

(** Event dictionaries for the examples: one whose 'info_dict' entry is None,
    and one whose 'id' entry is a list that is not empty *)
Definition event_without_info : EventDict := InfoDictWithoutGet "NoneType".
Definition event_with_list_id : EventDict := IdOfOtherType "list" true false.

(** * Format Selector: inclusion, ranking, notes *)

Section FormatSelector.
Context `{PythonFloats}.

Lemma py_ne_absent (c : option string) : py_ne c "none" = true ↔ ¬ codec_absent c.
Proof.
  unfold py_ne, py_eq, codec_absent. destruct c as [x|]; simpl.
  - destruct (String.eqb_spec x "none") as [->|Hne]; simpl; split; try done.
    + intros _ [=]. done.
  - split; done.
Qed.

Lemma py_eq_absent (c : option string) : py_eq c "none" = true ↔ codec_absent c.
Proof.
  unfold py_eq, codec_absent. destruct c as [x|]; simpl; [|split; done].
  rewrite String.eqb_eq. split; [by intros -> | by intros [= ->]].
Qed.

Lemma py_eq_Some (c : option string) (s : string) : py_eq c s = true ↔ c = Some s.
Proof.
  unfold py_eq. destruct c as [x|]; simpl; [|split; done].
  rewrite String.eqb_eq. split; [by intros -> | by intros [= ->]].
Qed.

Lemma included_rule (f : RawFormat) : included f = true ↔ inclusion_rule f.
Proof.
  unfold included, inclusion_rule.
  rewrite !orb_true_iff, !andb_true_iff, !py_ne_absent, py_eq_absent, py_eq_Some.
  tauto.
Qed.

Lemma filter_included (fs : list RawFormat) :
  filter inclusion_rule fs = filter (λ f, included f = true) fs.
Proof. apply list_filter_iff. intros f. by rewrite included_rule. Qed.

Lemma collect_formats_entries (fs : list RawFormat) (kept : list FormatOption) :
  collect_formats fs = Ok kept → Forall2 entry_of (filter inclusion_rule fs) kept.
Proof.
  rewrite filter_included. revert kept.
  induction fs as [|f fs IH]; intros kept; simpl.
  - intros [= <-]. constructor.
  - rewrite filter_cons. destruct (decide (included f = true)) as [Hf|Hf].
    + rewrite Hf.
      destruct (format_entry f) as [o|e] eqn:Ho; simpl; [|done].
      destruct (collect_formats fs) as [os|e] eqn:Hos; simpl; [|done].
      intros [= <-]. constructor; [done | by apply IH].
    + apply not_true_is_false in Hf. rewrite Hf. apply IH.
Qed.

Lemma format_entry_returns (f : RawFormat) :
  carries_ids f → ∃ o, format_entry f = Ok o.
Proof.
  intros [[fid Hfid] [e He]]. unfold format_entry. rewrite Hfid, He. simpl. eauto.
Qed.

Lemma collect_formats_returns (fs : list RawFormat) :
  Forall carries_ids fs → ∃ kept, collect_formats fs = Ok kept.
Proof.
  induction 1 as [|f fs Hf _ [kept IH]]; simpl; [eauto|].
  destruct (included f); [|eauto].
  destruct (format_entry_returns f Hf) as [o ->]. rewrite IH. simpl. eauto.
Qed.

Lemma select_formats_returns (fs : list RawFormat) :
  Forall carries_ids fs →
  ∃ kept, collect_formats fs = Ok kept ∧ select_formats fs = Ok (sort_by_tbr kept).
Proof.
  intros Hfs. destruct (collect_formats_returns fs Hfs) as [kept Hk].
  exists kept. split; [done|]. unfold select_formats. by rewrite Hk.
Qed.
End FormatSelector.

(** ** The sort *)

Section Ranking.

Lemma key_geb_refl (a : option Q) : key_geb a a = true.
Proof. destruct a as [x|]; simpl; [|done]. apply Qle_bool_iff, Qle_refl. Qed.

Lemma key_geb_total (a b : option Q) : key_geb a b = true ∨ key_geb b a = true.
Proof.
  destruct a as [x|], b as [y|]; simpl; auto.
  destruct (Qlt_le_dec x y) as [Hlt|Hle].
  - right. apply Qle_bool_iff, Qlt_le_weak, Hlt.
  - left. by apply Qle_bool_iff.
Qed.

Lemma key_geb_trans (a b c : option Q) :
  key_geb a b = true → key_geb b c = true → key_geb a c = true.
Proof.
  destruct a as [x|], b as [y|], c as [z|]; simpl; try done.
  rewrite !Qle_bool_iff. intros Hyx Hzy. by eapply Qle_trans.
Qed.

Lemma key_geb_false (a b : option Q) : key_geb a b = false → key_geb b a = true.
Proof. intros Hab. destruct (key_geb_total a b) as [Ht|Ht]; congruence. Qed.

Lemma tbr_ge_key (a b : FormatOption) :
  tbr_ge (tbr a) (tbr b) ↔ key_geb (sort_key a) (sort_key b) = true.
Proof.
  unfold tbr_ge, sort_key. destruct (tbr a) as [x|], (tbr b) as [y|]; simpl; try done.
  by rewrite Qle_bool_iff.
Qed.

(** Two entries with the bitrate [k] are not separated by the sort. *)
Lemma same_tbr_geb (a b : FormatOption) (k : option number) :
  same_tbr (tbr a) k = true → same_tbr (tbr b) k = true →
  key_geb (sort_key a) (sort_key b) = true.
Proof.
  unfold same_tbr, key_eqb, sort_key. rewrite !andb_true_iff.
  intros [Hak _] [_ Hkb]. by eapply key_geb_trans.
Qed.

Lemma insert_desc_perm (x : FormatOption) (l : list FormatOption) :
  insert_desc x l ≡ₚ x :: l.
Proof.
  induction l as [|y l IH]; simpl; [done|].
  destruct (key_geb (sort_key x) (sort_key y)); [done|].
  rewrite IH. apply Permutation_swap.
Qed.

Lemma sort_by_tbr_perm (l : list FormatOption) : sort_by_tbr l ≡ₚ l.
Proof.
  induction l as [|x l IH]; simpl; [done|].
  rewrite insert_desc_perm. by f_equiv.
Qed.

Lemma insert_desc_sorted (x : FormatOption) (l : list FormatOption) :
  StronglySorted ranked l → StronglySorted ranked (insert_desc x l).
Proof.
  induction 1 as [|y l Hl IH Hy]; simpl.
  - repeat constructor.
  - destruct (key_geb (sort_key x) (sort_key y)) eqn:Hxy.
    + constructor; [by constructor|].
      constructor; [by apply tbr_ge_key|].
      eapply Forall_impl; [exact Hy|]. intros z Hz.
      apply tbr_ge_key. eapply key_geb_trans; [exact Hxy|]. by apply tbr_ge_key.
    + constructor; [done|].
      rewrite insert_desc_perm. constructor; [|done].
      by apply tbr_ge_key, key_geb_false.
Qed.

Lemma sort_by_tbr_sorted (l : list FormatOption) : StronglySorted ranked (sort_by_tbr l).
Proof.
  induction l as [|x l IH]; simpl; [constructor|]. by apply insert_desc_sorted.
Qed.

Lemma insert_desc_stable (k : option number) (x : FormatOption) (l : list FormatOption) :
  filter (λ o, same_tbr (tbr o) k = true) (insert_desc x l)
  = filter (λ o, same_tbr (tbr o) k = true) (x :: l).
Proof.
  induction l as [|y l IH]; simpl; [done|].
  destruct (key_geb (sort_key x) (sort_key y)) eqn:Hxy; [done|].
  rewrite (filter_cons _ y (insert_desc x l)), IH.
  rewrite !(filter_cons _ x), !(filter_cons _ y).
  destruct (decide (same_tbr (tbr x) k = true)) as [Hx|Hx];
    destruct (decide (same_tbr (tbr y) k = true)) as [Hy|Hy]; try done.
  pose proof (same_tbr_geb x y k Hx Hy). congruence.
Qed.

Lemma sort_by_tbr_stable (k : option number) (l : list FormatOption) :
  filter (λ o, same_tbr (tbr o) k = true) (sort_by_tbr l)
  = filter (λ o, same_tbr (tbr o) k = true) l.
Proof.
  induction l as [|x l IH]; simpl; [done|].
  rewrite insert_desc_stable, !(filter_cons _ x), IH. done.
Qed.

Lemma ranked_lookup (l : list FormatOption) (i j : nat) (a b : FormatOption) :
  StronglySorted ranked l → (i < j)%nat → l !! i = Some a → l !! j = Some b → ranked a b.
Proof.
  intros Hl. revert i j. induction Hl as [|x l Hl IH Hx]; intros i j Hij Hi Hj; [done|].
  destruct j as [|j]; [lia|]. simpl in Hj.
  destruct i as [|i]; simpl in Hi.
  - injection Hi as <-. rewrite Forall_forall in Hx. apply Hx.
    by eapply list_elem_of_lookup_2.
  - apply (IH i j); [lia|done..].
Qed.
End Ranking.

(** ** The claims on the Format Selector *)

Section FormatSelectorClaims.
Context `{PythonFloats}.

Lemma format_entry_inv (f : RawFormat) (o : FormatOption) :
  format_entry f = Ok o →
  r_format_id f = Some (format_id o) ∧ r_ext f = Some (ext o)
  ∧ filesize o = r_filesize f ∧ tbr o = r_tbr f
  ∧ format_note o = str_join " " (note_parts f)
  ∧ has_audio o = py_ne (r_acodec f) "none"
  ∧ has_video o = py_ne (r_vcodec f) "none".
Proof.
  unfold format_entry.
  destruct (r_format_id f) as [fid|]; simpl; [|done].
  destruct (r_ext f) as [e|]; simpl; [|done].
  intros [= <-]. simpl. done.
Qed.

Lemma entry_rule_of (f : RawFormat) (o : FormatOption) :
  inclusion_rule f → format_entry f = Ok o → entry_rule o.
Proof.
  intros Hf Ho. apply included_rule in Hf.
  destruct (format_entry_inv f o Ho) as (_ & He & _ & _ & _ & Ha & Hv).
  unfold included in Hf. unfold entry_rule. rewrite Ha, Hv.
  rewrite !orb_true_iff, !andb_true_iff in Hf.
  destruct Hf as [[[Hf1 Hf2]|[Hf1 Hf2]]|[Hf1 Hf2]].
  - by left.
  - right. left. split; [done|]. apply py_eq_Some in Hf2. congruence.
  - right. right. split; [done|]. unfold py_ne. by rewrite Hf2.
Qed.

Lemma kept_entry_rule (l : list RawFormat) (kept : list FormatOption) :
  Forall inclusion_rule l → Forall2 entry_of l kept → Forall entry_rule kept.
Proof.
  intros Hl Hk. induction Hk as [|f o l kept Hfo _ IH]; [constructor|].
  inversion Hl; subst. constructor; [by eapply entry_rule_of | by apply IH].
Qed.

Lemma Forall_filter_rule (fs : list RawFormat) :
  Forall inclusion_rule (filter inclusion_rule fs).
Proof. apply Forall_forall. intros f Hf. by apply list_elem_of_filter in Hf as [? _]. Qed.

Lemma note_parts_composition (f : RawFormat) :
  note_parts f = (with_unit "p" (nonzero (r_height f)) ++ with_unit "fps" (nonzero (r_fps f))
                  ++ [classification f])%list.
Proof.
  unfold note_parts, classification. f_equal; [|f_equal].
  - destruct (r_height f) as [h|]; simpl; [|done]. by destruct (number_truthy h).
  - destruct (r_fps f) as [r|]; simpl; [|done]. by destruct (number_truthy r).
  - destruct (decide (codec_absent (r_acodec f))) as [Ha|Ha].
    + pose proof Ha as Ha'. apply py_eq_absent in Ha'.
      unfold py_ne. rewrite Ha'. done.
    + pose proof Ha as Ha'. apply py_ne_absent in Ha'. rewrite Ha'.
      unfold py_ne in Ha'. apply negb_true_iff in Ha'. rewrite Ha'.
      destruct (decide (codec_absent (r_vcodec f))) as [Hv|Hv].
      * pose proof Hv as Hv'. apply py_eq_absent in Hv'.
        unfold py_ne. rewrite Hv'. done.
      * apply py_ne_absent in Hv. rewrite Hv. done.
Qed.

Lemma select_formats_entry_rule (fs : list RawFormat) :
  Forall carries_ids fs →
  ∃ kept,
    collect_formats fs = Ok kept
    ∧ select_formats fs = Ok (sort_by_tbr kept)
    ∧ Forall entry_rule (sort_by_tbr kept).
Proof.
  intros Hfs. destruct (select_formats_returns fs Hfs) as (kept & Hk & Hout).
  exists kept. repeat split; [done..|].
  rewrite sort_by_tbr_perm. eapply kept_entry_rule; [apply Forall_filter_rule|].
  by apply collect_formats_entries.
Qed.

(** C5: given raw records that carry format_id and ext, the Format
    Selector returns a list whose entries are, up to order, exactly the
    entries of the records that satisfy the inclusion rule (combined, or
    video in mp4, or audio-only), one for each such record; every entry of
    the output satisfies the rule itself, so that no video-only entry in a
    container other than mp4 appears. *)
Theorem select_formats_inclusion (fs : list RawFormat) :
  Forall carries_ids fs →
  ∃ out kept,
    select_formats fs = Ok out
    ∧ Forall2 entry_of (filter inclusion_rule fs) kept
    ∧ out ≡ₚ kept
    ∧ Forall entry_rule out
    ∧ Forall (λ o, ¬ (has_video o = true ∧ has_audio o = false ∧ ext o ≠ "mp4")) out.
Proof.
  intros Hfs. destruct (select_formats_entry_rule fs Hfs) as (kept & Hk & Hout & Hrule).
  exists (sort_by_tbr kept), kept.
  repeat split; [done|by apply collect_formats_entries|apply sort_by_tbr_perm|done|].
  eapply Forall_impl; [exact Hrule|]. unfold entry_rule.
  intros o Ho (Hv & Ha & He). destruct Ho as [[Ha' _]|[[_ He']|[Ha' _]]]; congruence.
Qed.

(** C6: the output of the Format Selector is sorted non-increasing by tbr,
    an absent tbr counting as minus infinity, so that no entry with a tbr
    follows an entry without one; and the entries of any one tbr value
    stand in the order their records have in the input. *)
Theorem select_formats_ranking (fs : list RawFormat) :
  Forall carries_ids fs →
  ∃ out kept,
    select_formats fs = Ok out
    ∧ Forall2 entry_of (filter inclusion_rule fs) kept
    ∧ StronglySorted ranked out
    ∧ (∀ i j a b, (i < j)%nat → out !! i = Some a → out !! j = Some b →
                  tbr a = None → tbr b = None)
    ∧ (∀ k, filter (λ o, same_tbr (tbr o) k = true) out
            = filter (λ o, same_tbr (tbr o) k = true) kept).
Proof.
  intros Hfs. destruct (select_formats_returns fs Hfs) as (kept & Hk & Hout).
  exists (sort_by_tbr kept), kept.
  repeat split; [done|by apply collect_formats_entries|apply sort_by_tbr_sorted| |].
  - intros i j a b Hij Ha Hb Hnone.
    pose proof (ranked_lookup _ i j a b (sort_by_tbr_sorted kept) Hij Ha Hb) as Hr.
    unfold ranked, tbr_ge in Hr. rewrite Hnone in Hr. by destruct (tbr b).
  - intros k. apply sort_by_tbr_stable.
Qed.

(** C8 (as amended): the format_note of the entry of every included
    record is the space-joined list of "{height}p" when height is present
    and not zero, "{fps}fps" when fps is present and not zero, and then
    exactly one of "video+audio", "video-only", "audio-only" according to
    the record's classification. *)
Theorem format_note_composition (fs : list RawFormat) :
  Forall carries_ids fs →
  ∃ out kept,
    select_formats fs = Ok out
    ∧ out ≡ₚ kept
    ∧ Forall2 (λ f o, entry_of f o ∧ format_note o = format_note_of f)
        (filter inclusion_rule fs) kept.
Proof.
  intros Hfs. destruct (select_formats_returns fs Hfs) as (kept & Hk & Hout).
  exists (sort_by_tbr kept), kept.
  repeat split; [done|apply sort_by_tbr_perm|].
  eapply Forall2_impl; [by apply collect_formats_entries|].
  intros f o Hfo. split; [done|].
  destruct (format_entry_inv f o Hfo) as (_ & _ & _ & _ & Hnote & _).
  rewrite Hnote, note_parts_composition. done.
Qed.

(** C10: every entry the Format Selector produces has has_audio or
    has_video true. *)
Theorem select_formats_has_stream (fs : list RawFormat) :
  Forall carries_ids fs →
  ∃ out,
    select_formats fs = Ok out
    ∧ Forall (λ o, has_audio o = true ∨ has_video o = true) out.
Proof.
  intros Hfs. destruct (select_formats_entry_rule fs Hfs) as (kept & _ & Hout & Hrule).
  exists (sort_by_tbr kept). split; [done|].
  eapply Forall_impl; [exact Hrule|]. unfold entry_rule. intros o. tauto.
Qed.
End FormatSelectorClaims.

Lemma sample_formats_carry_ids : Forall carries_ids sample_formats.
Proof. repeat constructor; by eexists. Defined.

Lemma select_formats_inclusion_witness :
  Forall carries_ids sample_formats
  ∧ ∃ out kept,
      @select_formats sample_floats sample_formats = Ok out
      ∧ Forall2 (@entry_of sample_floats) (filter inclusion_rule sample_formats) kept
      ∧ out ≡ₚ kept
      ∧ Forall entry_rule out
      ∧ Forall (λ o, ¬ (has_video o = true ∧ has_audio o = false ∧ ext o ≠ "mp4")) out.
Proof.
  split; [exact sample_formats_carry_ids|].
  apply (@select_formats_inclusion sample_floats sample_formats).
  exact sample_formats_carry_ids.
Defined.

Lemma select_formats_ranking_witness :
  Forall carries_ids sample_formats
  ∧ ∃ out kept,
      @select_formats sample_floats sample_formats = Ok out
      ∧ Forall2 (@entry_of sample_floats) (filter inclusion_rule sample_formats) kept
      ∧ StronglySorted ranked out
      ∧ (∀ i j a b, (i < j)%nat → out !! i = Some a → out !! j = Some b →
                    tbr a = None → tbr b = None)
      ∧ (∀ k, filter (λ o, same_tbr (tbr o) k = true) out
              = filter (λ o, same_tbr (tbr o) k = true) kept).
Proof.
  split; [exact sample_formats_carry_ids|].
  apply (@select_formats_ranking sample_floats sample_formats).
  exact sample_formats_carry_ids.
Defined.

(** C8, the claim as it is written, fails: a combined mp4 record whose
    height is 0 gets the note "video+audio", not "0p video+audio". *)
Lemma claimed_format_note_fails :
  ¬ (∀ (F : PythonFloats) (f : RawFormat) (o : FormatOption),
       inclusion_rule f → entry_of f o → format_note o = claimed_format_note f).
Proof.
  intros Hclaim.
  assert (inclusion_rule zero_height_format) as Hrule.
  { apply included_rule. reflexivity. }
  specialize (Hclaim sample_floats zero_height_format _ Hrule eq_refl).
  vm_compute in Hclaim. discriminate Hclaim.
Qed.

Lemma format_note_composition_witness :
  Forall carries_ids sample_formats
  ∧ ∃ out kept,
      @select_formats sample_floats sample_formats = Ok out
      ∧ out ≡ₚ kept
      ∧ Forall2 (λ f o, @entry_of sample_floats f o
                        ∧ format_note o = @format_note_of sample_floats f)
          (filter inclusion_rule sample_formats) kept.
Proof.
  split; [exact sample_formats_carry_ids|].
  apply (@format_note_composition sample_floats sample_formats).
  exact sample_formats_carry_ids.
Defined.

Lemma select_formats_has_stream_witness :
  Forall carries_ids sample_formats
  ∧ ∃ out,
      @select_formats sample_floats sample_formats = Ok out
      ∧ Forall (λ o, has_audio o = true ∨ has_video o = true) out.
Proof.
  split; [exact sample_formats_carry_ids|].
  apply (@select_formats_has_stream sample_floats sample_formats).
  exact sample_formats_carry_ids.
Defined.

(** The sample list through the selector: the webm video-only record and the
    storyboard are dropped, the two entries of bitrate 4000 keep their input
    order, and the entry without a bitrate comes last. *)
Example select_formats_sample :
  (λ o, (format_id o, format_note o)) <$> default [] (match @select_formats sample_floats sample_formats with Ok l => Some l | Raise _ => None end)
  = [("137", "1080p 30fps video-only"); ("22", "video+audio");
     ("18", "360p 30fps video+audio"); ("251", "audio-only"); ("140", "audio-only")].
Proof. vm_compute. reflexivity. Qed.

(** * The progress hook *)

Section ProgressHook.
Context `{PythonFloats}.

Lemma deliver_nil (s : State) : deliver [] s = s.
Proof. destruct s. unfold deliver. simpl. by rewrite app_nil_r. Qed.

Lemma deliver_deliver (n1 n2 : list DownloadProgress.t) (s : State) :
  deliver n2 (deliver n1 s) = deliver (n1 ++ n2)%list s.
Proof. unfold deliver. simpl. by rewrite app_assoc. Qed.

Lemma add_delivered_deliver (p : DownloadProgress.t) (s : State) :
  add_delivered p s = deliver [p] s.
Proof. done. Qed.

Lemma downloading_progress_status (vid : string) (d : HookEvent) (p : DownloadProgress.t) :
  downloading_progress vid d = Ok p → DownloadProgress.status p = "downloading".
Proof.
  unfold downloading_progress, DownloadProgress.new.
  repeat (match goal with |- context [match ?x with _ => _ end] => destruct x end; try done);
    by intros [= <-].
Qed.

Lemma finished_progress_returns (vid : string) (d : HookEvent) (filename : string) :
  ∃ p, finished_progress vid d filename = Ok p
       ∧ DownloadProgress.status p = "finished"
       ∧ DownloadProgress.video_id p = vid
       ∧ DownloadProgress.filename p = Some filename.
Proof. eexists. split; [reflexivity|]. done. Qed.

Lemma call_callback_caught (cb : Callback) (p : DownloadProgress.t) (s : State) :
  try_except (call_callback cb p) (λ _, mret ()) s = (Ok (), deliver [p] s).
Proof. unfold try_except, call_callback. by destruct (cb (delivered s) p). Qed.

Lemma try_except_lift {A B} (r : result A) (k : A → M B) (h : exn → M B) (s : State) :
  try_except (x ← lift r; k x) h s
  = match r with
    | Ok a => try_except (k a) h s
    | Raise e => h e s
    end.
Proof. unfold try_except, mbind, M_bind, lift. by destruct r. Qed.

Lemma try_except_ret {A} (a : A) (h : exn → M A) (s : State) :
  try_except (mret a) h s = (Ok a, s).
Proof. done. Qed.

Lemma finished_filenames_one (p : DownloadProgress.t) :
  finished_filenames [p]
  = if is_finished p then [DownloadProgress.filename p] else [].
Proof.
  unfold finished_filenames. rewrite filter_cons, filter_nil.
  destruct (is_finished p); by simpl.
Qed.

(** The hook after its guard: the [try] block with its [except] clause. *)
Lemma hook_try_effect (registry : gmap string Callback) (vid : string) (cb : Callback)
    (d : HookEvent) (s : State) :
  i_id (event_info d) = Some vid → str_truthy vid = true → registry !! vid = Some cb →
  ∃ new,
    try_except (hook_try vid cb d) (λ _, mret ()) s = (Ok (), deliver new s)
    ∧ finished_filenames new = Some <$> option_list (forwarded_filename registry d).
Proof.
  intros Hid Hvid Hcb. unfold forwarded_filename. rewrite Hid, Hvid, Hcb.
  rewrite bool_decide_true by eauto. unfold hook_try.
  remember (endswith_any (default EmptyString (d_filename d)) intermediate_suffixes)
    as inter eqn:Hinter.
  rewrite try_except_lift. destruct (d_status d) as [status|]; simpl.
  2: { exists []. by rewrite deliver_nil. }
  destruct (String.eqb_spec status "downloading") as [->|Hdown].
  - rewrite try_except_lift.
    destruct (downloading_progress vid d) as [p|e] eqn:Hp.
    + exists [p]. rewrite call_callback_caught. split; [done|].
      rewrite finished_filenames_one. unfold is_finished.
      by rewrite (downloading_progress_status _ _ _ Hp).
    + exists []. by rewrite deliver_nil.
  - destruct (String.eqb_spec status "finished") as [->|Hfin]; simpl.
    + destruct inter; simpl.
      * exists []. by rewrite deliver_nil.
      * rewrite try_except_lift.
        destruct (finished_progress_returns vid d (default EmptyString (d_filename d)))
          as (p & -> & Hst & _ & Hfn).
        exists [p]. rewrite call_callback_caught. split; [done|].
        rewrite finished_filenames_one. unfold is_finished. by rewrite Hst, Hfn.
    + exists []. by rewrite deliver_nil.
Qed.

Lemma progress_hook_effect (d : HookEvent) (s : State) :
  ∃ new,
    _progress_hook d s = (Ok (), deliver new s)
    ∧ finished_filenames new = Some <$> option_list (forwarded_filename (progress_callbacks s) d).
Proof.
  unfold _progress_hook. cbv [mbind M_bind get_state].
  destruct (i_id (event_info d)) as [vid|] eqn:Hid.
  2: { exists []. rewrite deliver_nil. unfold forwarded_filename. by rewrite Hid. }
  destruct (str_truthy vid) eqn:Hvid; simpl.
  2: { exists []. rewrite deliver_nil. unfold forwarded_filename. rewrite Hid, Hvid.
       by destruct (d_status d). }
  destruct (progress_callbacks s !! vid) as [cb|] eqn:Hcb.
  - by apply hook_try_effect.
  - exists []. rewrite deliver_nil. unfold forwarded_filename. rewrite Hid, Hvid, Hcb.
    rewrite bool_decide_false by (by intros [? ?]). by destruct (d_status d).
Qed.

(** An event for an identifier without a registered callback *)
Lemma progress_hook_unregistered (d : HookEvent) (s : State) :
  (∀ vid, i_id (event_info d) = Some vid → progress_callbacks s !! vid = None) →
  _progress_hook d s = (Ok (), s).
Proof.
  intros Hnone. unfold _progress_hook. cbv [mbind M_bind get_state].
  destruct (i_id (event_info d)) as [vid|]; [|done].
  destruct (str_truthy vid); simpl; [|done].
  by rewrite (Hnone vid eq_refl).
Qed.

Lemma run_hooks_self (d : HookEvent) (s : State) :
  run_hooks [self_progress_hook] d s = _progress_hook d s.
Proof.
  cbn [run_hooks run_hook]. cbv [mbind M_bind].
  destruct (progress_hook_effect d s) as (new & -> & _). done.
Qed.

Lemma run_events_effect (events : list HookEvent) (s : State) :
  ∃ new,
    run_events [self_progress_hook] events s = (Ok (), deliver new s)
    ∧ finished_filenames new
      = Some <$> omap (forwarded_filename (progress_callbacks s)) events.
Proof.
  revert s. induction events as [|d events IH]; intros s.
  - exists []. by rewrite deliver_nil.
  - cbn [run_events]. cbv [mbind M_bind]. rewrite run_hooks_self.
    destruct (progress_hook_effect d s) as (n1 & -> & Hn1).
    destruct (IH (deliver n1 s)) as (n2 & -> & Hn2).
    exists (n1 ++ n2)%list. rewrite deliver_deliver. split; [done|].
    unfold finished_filenames in *. rewrite filter_app, fmap_app, Hn1, Hn2. simpl.
    destruct (forwarded_filename (progress_callbacks s) d); done.
Qed.

End ProgressHook.

(** * download_video *)

Section DownloadVideo.
Context `{PythonFloats}.

Lemma run_download_effect (ydl : YoutubeDL) (ydl_opts : YdlOpts) (url : string) (s : State) :
  opt_progress_hooks ydl_opts = [self_progress_hook] →
  ∃ new,
    run_download ydl ydl_opts url s
    = (match (download ydl url).2 with None => Ok () | Some e => Raise e end, deliver new s)
    ∧ finished_filenames new
      = Some <$> omap (forwarded_filename (progress_callbacks s)) (download ydl url).1.
Proof.
  intros Hhooks. unfold run_download. rewrite Hhooks.
  destruct (download ydl url) as [events outcome]. cbv [mbind M_bind]. simpl.
  destruct (run_events_effect events s) as (new & -> & Hnew).
  exists new. split; [|done]. by destruct outcome.
Qed.

Lemma download_ydl_opts_hooks dir format_id extract_audio start_time end_time :
  opt_progress_hooks (download_ydl_opts dir format_id extract_audio start_time end_time)
  = [self_progress_hook].
Proof. unfold download_ydl_opts. by destruct extract_audio. Qed.

(** The registry while the download runs *)
Lemma download_finally_registry (vid : string) (s : State) :
  str_truthy vid = true →
  progress_callbacks (download_finally (Some vid) s) = delete vid (progress_callbacks s)
  ∧ delivered (download_finally (Some vid) s) = delivered s
  ∧ created (download_finally (Some vid) s) = created s.
Proof.
  intros Hvid. unfold download_finally. rewrite Hvid. simpl.
  destruct (progress_callbacks s !! vid) as [cb|] eqn:Hcb.
  - rewrite bool_decide_true by eauto. done.
  - rewrite bool_decide_false by (by intros [? ?]). by rewrite delete_id.
Qed.

Lemma download_video_resolved (tool : Tool) (url : string) (format_id : option string)
    (extract_audio : bool) (start_time end_time : option Z) (callback : option Callback)
    (s : State) (vid : string) :
  let ydl_opts :=
    download_ydl_opts (downloads_dir s) format_id extract_audio start_time end_time in
  let ydl := tool (length (created s)) ydl_opts in
  let registry :=
    match callback with
    | Some cb => <[vid := cb]> (progress_callbacks s)
    | None => progress_callbacks s
    end in
  resolved_video_id ydl url = Some vid →
  ∃ info new s',
    extract_info ydl url = Ok (Some info) ∧ i_id info = Some vid
    ∧ download_video tool url format_id extract_audio start_time end_time callback s
      = (match (download ydl url).2 with
         | None => Ok (i_title info)
         | Some e => Raise (ExceptionFrom "Error downloading video: " e)
         end, s')
    ∧ progress_callbacks s' = delete vid (progress_callbacks s)
    ∧ delivered s' = (delivered s ++ new)%list
    ∧ created s' = (created s ++ [ydl_opts])%list
    ∧ finished_filenames new = Some <$> omap (forwarded_filename registry) (download ydl url).1.
Proof.
  intros ydl_opts ydl registry. unfold resolved_video_id.
  destruct (extract_info ydl url) as [[info|]|] eqn:Hinfo; try done.
  destruct (i_id info) as [vid'|] eqn:Hid; [|done].
  destruct (str_truthy vid') eqn:Hvid; [|done]. intros [= ->].
  pose (s2 := match callback with
              | Some cb => register vid cb (add_created ydl_opts s)
              | None => add_created ydl_opts s
              end).
  assert (progress_callbacks s2 = registry) as Hreg by (by destruct callback).
  destruct (run_download_effect ydl ydl_opts url s2) as (new & Hrun & Hnew).
  { apply download_ydl_opts_hooks. }
  destruct (download_finally_registry vid (deliver new s2) Hvid) as (Hf1 & Hf2 & Hf3).
  exists info, new, (download_finally (Some vid) (deliver new s2)).
  repeat split; [done| |..].
  - unfold download_video. fold ydl_opts.
    unfold download_try. cbv [mbind Body_bind run new_YoutubeDL lift].
    fold ydl. rewrite Hinfo. cbv [set_local]. rewrite Hid, Hvid.
    replace (match callback with
             | Some cb => λ '(l, s0), let '(r0, s') := modify (register vid cb) s0 in (r0, (l, s'))
             | None => mret ()
             end (Some vid, add_created ydl_opts s))
      with (Ok (), (Some vid, s2)) by (by destruct callback).
    rewrite Hrun. by destruct ((download ydl url).2).
  - rewrite Hf1. simpl. rewrite Hreg. unfold registry.
    destruct callback; [by rewrite delete_insert_eq | done].
  - rewrite Hf2. simpl. by destruct callback.
  - rewrite Hf3. simpl. by destruct callback.
  - by rewrite <- Hreg.
Qed.

Lemma download_video_unresolved (tool : Tool) (url : string) (format_id : option string)
    (extract_audio : bool) (start_time end_time : option Z) (callback : option Callback)
    (s : State) :
  let ydl_opts :=
    download_ydl_opts (downloads_dir s) format_id extract_audio start_time end_time in
  resolved_video_id (tool (length (created s)) ydl_opts) url = None →
  ∃ e,
    download_video tool url format_id extract_audio start_time end_time callback s
    = (Raise e, add_created ydl_opts s).
Proof.
  intros ydl_opts. unfold resolved_video_id, download_video. fold ydl_opts.
  unfold download_try. cbv [mbind Body_bind run new_YoutubeDL lift].
  destruct (extract_info _ url) as [[info|]|]; [| |by eauto].
  2: { destruct (falsy_result _ url); by eauto. }
  cbv [set_local]. destruct (i_id info) as [vid|]; [|by eauto].
  destruct (str_truthy vid) eqn:Hvid; [done|]. intros _.
  eexists. unfold body_raise, download_finally. by rewrite Hvid.
Qed.

End DownloadVideo.

(** * The claims on download_video and the progress hook *)

Section DownloadClaims.
Context `{PythonFloats}.

(** C3: when download_video is called with a callback and resolves a video
    identifier, then however the call ends the registry holds no entry for
    that identifier afterwards, and the entries of other identifiers are
    untouched; and the progress hook, invoked with an event whose identifier
    has no entry in the registry, returns normally and leaves the state as
    it is. *)
Theorem callback_deregistered :
  (∀ (tool : Tool) (url : string) (format_id : option string) (extract_audio : bool)
     (start_time end_time : option Z) (cb : Callback) (s : State) (vid : string),
     resolved_video_id
       (tool (length (created s))
          (download_ydl_opts (downloads_dir s) format_id extract_audio start_time end_time))
       url = Some vid →
     let s' := (download_video tool url format_id extract_audio start_time end_time
                  (Some cb) s).2 in
     progress_callbacks s' !! vid = None
     ∧ ∀ other, other ≠ vid → progress_callbacks s' !! other = progress_callbacks s !! other)
  ∧ (∀ (d : HookEvent) (s : State) (vid : string),
       i_id (event_info d) = Some vid → progress_callbacks s !! vid = None →
       _progress_hook d s = (Ok (), s)).
Proof.
  split.
  - intros tool url format_id extract_audio start_time end_time cb s vid Hres s'.
    destruct (download_video_resolved tool url format_id extract_audio start_time end_time
                (Some cb) s vid Hres) as (info & new & s'' & _ & _ & Hrun & Hreg & _).
    subst s'. rewrite Hrun. simpl. rewrite Hreg. split.
    + apply lookup_delete_eq.
    + intros other Hother. by apply lookup_delete_ne.
  - intros d s vid Hid Hnone. apply progress_hook_unregistered.
    intros vid' Hid'. congruence.
Qed.

(** C7 (as amended): the hook returns normally, whatever the registered
    callbacks do, for every event the tool passes, and more generally for
    every event dictionary on which its guard is defined: the 'info_dict'
    entry is missing or a dictionary, and the 'id' is missing, None, a string
    or any other value that is falsy or hashable.  For every other event
    dictionary the hook raises, since its first two lines stand outside the
    [try], and leaves the state as it is.  The download that download_video
    starts ends the way the tool's own download ends, whatever happened
    inside the hook. *)
Theorem progress_hook_raises_only_in_guard :
  (∀ (d : HookEvent) (s : State), ∃ s', _progress_hook d s = (Ok (), s'))
  ∧ (∀ (ev : EventDict) (s : State),
       guard_defined ev = true → ∃ s', _progress_hook ev s = (Ok (), s'))
  ∧ (∀ (ev : EventDict) (s : State),
       guard_defined ev = false → ∃ e, _progress_hook ev s = (Raise e, s))
  ∧ (∀ (ydl : YoutubeDL) (url : string) (format_id : option string) (extract_audio : bool)
       (start_time end_time : option Z) (s : State),
       (run_download ydl
          (download_ydl_opts (downloads_dir s) format_id extract_audio start_time end_time)
          url s).1
       = match (download ydl url).2 with
         | None => Ok ()
         | Some e => Raise e
         end).
Proof.
  split; [|split; [|split]].
  - intros d s. destruct (progress_hook_effect d s) as (new & Hrun & _). eauto.
  - intros [d|type_name|type_name truth hashable] s Hguard.
    + destruct (progress_hook_effect d s) as (new & Hrun & _). eauto.
    + done.
    + exists s. cbn [guard_defined] in Hguard. cbn [_progress_hook].
      destruct truth; [|done]. destruct hashable; done.
  - intros [d|type_name|type_name truth hashable] s Hguard.
    + done.
    + eexists. reflexivity.
    + cbn [guard_defined] in Hguard. cbn [_progress_hook].
      destruct truth; [|done]. destruct hashable; [done|]. eexists. reflexivity.
  - intros ydl url format_id extract_audio start_time end_time s.
    destruct (run_download_effect ydl
                (download_ydl_opts (downloads_dir s) format_id extract_audio start_time
                   end_time) url s) as (new & -> & _); [|done].
    apply download_ydl_opts_hooks.
Qed.

(** C9: download_video creates one instance of the tool, and the options it
    gives it depend on the mode.  With extract_audio: format 'bestaudio/best',
    one postprocessor that extracts audio to mp3 at quality '192', keepvideo
    False.  Without: the format is format_id when one is given (and not
    empty), else best video up to 1080p in mp4 plus best m4a audio, else best
    mp4, else best; merge_output_format 'mp4'; keepvideo True. *)
Theorem download_video_options (tool : Tool) (url : string) (format_id : option string)
    (extract_audio : bool) (start_time end_time : option Z) (callback : option Callback)
    (s : State) :
  ∃ ydl_opts,
    created (download_video tool url format_id extract_audio start_time end_time
               callback s).2 = (created s ++ [ydl_opts])%list
    ∧ if extract_audio then
        opt_format ydl_opts = Some "bestaudio/best"
        ∧ opt_postprocessors ydl_opts
          = [[("key", "FFmpegExtractAudio"); ("preferredcodec", "mp3");
              ("preferredquality", "192")]]
        ∧ opt_keepvideo ydl_opts = Some false
      else
        opt_format ydl_opts
        = Some (match format_id with
                | Some f =>
                    if str_truthy f then f
                    else "bestvideo[height<=1080][ext=mp4]+bestaudio[ext=m4a]/best[ext=mp4]/best"
                | None =>
                    "bestvideo[height<=1080][ext=mp4]+bestaudio[ext=m4a]/best[ext=mp4]/best"
                end)
        ∧ opt_merge_output_format ydl_opts = Some "mp4"
        ∧ opt_keepvideo ydl_opts = Some true.
Proof.
  exists (download_ydl_opts (downloads_dir s) format_id extract_audio start_time end_time).
  split.
  - destruct (resolved_video_id
                (tool (length (created s))
                   (download_ydl_opts (downloads_dir s) format_id extract_audio start_time
                      end_time)) url) as [vid|] eqn:Hres.
    + destruct (download_video_resolved tool url format_id extract_audio start_time
                  end_time callback s vid Hres)
        as (info & new & s' & _ & _ & Hrun & _ & _ & Hcreated & _).
      by rewrite Hrun.
    + destruct (download_video_unresolved tool url format_id extract_audio start_time
                  end_time callback s Hres) as (e & Hrun).
      by rewrite Hrun.
  - unfold download_ydl_opts. destruct extract_audio; simpl; [done|].
    repeat split. destruct format_id as [f|]; simpl; [|done]. by destruct (str_truthy f).
Qed.
End DownloadClaims.

Lemma callback_deregistered_witness :
  let tool := firing example_events (Some (ToolError "network unreachable")) in
  let url := "https://www.youtube.com/watch?v=dQw4w9WgXcQ" in
  let vid := "dQw4w9WgXcQ" in
  (resolved_video_id
     (tool (length (created fresh_service))
        (download_ydl_opts (downloads_dir fresh_service) None false None None))
     url = Some vid
   ∧ (let s' := (@download_video sample_floats tool url None false None None
                   (Some failing_callback) fresh_service).2 in
      progress_callbacks s' !! vid = None
      ∧ ∀ other, other ≠ vid →
                 progress_callbacks s' !! other = progress_callbacks fresh_service !! other))
  ∧ (i_id (event_info (finished "final.mp4")) = Some vid
     ∧ progress_callbacks fresh_service !! vid = None
     ∧ @_progress_hook sample_floats (finished "final.mp4") fresh_service
       = (Ok (), fresh_service)).
Proof.
  intros tool url vid.
  destruct (@callback_deregistered sample_floats) as [Hcall Hhook].
  split.
  - split; [reflexivity|].
    apply (Hcall tool url None false None None failing_callback fresh_service vid).
    reflexivity.
  - split; [reflexivity|]. split; [reflexivity|].
    apply (Hhook (finished "final.mp4") fresh_service vid); reflexivity.
Defined.

(** The hook on an event of the tool with a callback that raises, and on an
    event dictionary whose 'info_dict' entry is None. *)
Lemma progress_hook_raises_only_in_guard_witness :
  (guard_defined (finished "final.mp4") = true
   ∧ ∃ s', @_progress_hook sample_floats (finished "final.mp4") listening_service
           = (Ok (), s'))
  ∧ (guard_defined event_without_info = false
     ∧ ∃ e, @_progress_hook sample_floats event_without_info listening_service
            = (Raise e, listening_service)).
Proof.
  destruct (@progress_hook_raises_only_in_guard sample_floats) as (_ & Hpass & Hfail & _).
  split.
  - split; [reflexivity|].
    apply (Hpass (WellTyped (finished "final.mp4")) listening_service). reflexivity.
  - split; [reflexivity|].
    apply (Hfail event_without_info listening_service). reflexivity.
Defined.

(** C7, the claim as it is written, fails: called with an event dictionary
    whose 'info_dict' entry is None, the hook raises AttributeError, although
    no callback is even looked up. *)
Lemma progress_hook_raises_without_info_dict : ¬ hook_never_raises.
Proof.
  intros Hclaim.
  destruct (Hclaim sample_floats event_without_info listening_service) as [s' Hrun].
  discriminate Hrun.
Qed.

(** The same for an event dictionary whose 'id' entry is a non-empty list:
    the membership test of the guard raises TypeError. *)
Example progress_hook_unhashable_id :
  @_progress_hook sample_floats event_with_list_id listening_service
  = (Raise (TypeError "unhashable type: 'list'"), listening_service).
Proof. reflexivity. Qed.

(** The event sequence of the specification's example: the callback receives
    the three 'downloading' objects and one 'finished' object, for
    final.mp4; afterwards the registry is empty. *)
Example example_events_forwarded :
  let s' := (@download_video sample_floats (firing example_events None)
               "https://www.youtube.com/watch?v=dQw4w9WgXcQ" None false None None
               (Some quiet_callback) fresh_service).2 in
  finished_filenames (delivered s') = [Some "final.mp4"]
  ∧ DownloadProgress.status <$> delivered s'
    = ["downloading"; "downloading"; "downloading"; "finished"]
  ∧ progress_callbacks s' = ∅.
Proof. vm_compute. repeat split. Qed.

(** * Playlists: get_playlist_info and batch_download_playlist *)

Section Playlists.
Context `{PythonFloats}.

(** The loop over the entries does number the surviving entries by their
    original positions. *)
Lemma playlist_entries_index (idx : Z) (entries : list (option Entry))
    (videos : list VideoInfo.t) :
  playlist_entries idx entries = Ok videos →
  VideoInfo.playlist_index <$> videos = Some <$> surviving_positions idx entries
  ∧ Forall (λ v, VideoInfo.formats v = []) videos.
Proof.
  revert idx videos.
  induction entries as [|[entry|] entries IH]; intros idx videos; cbn [playlist_entries].
  - intros [= <-]. by split.
  - cbv [mbind result_mbind result_bind].
    destruct (getitem "id" (e_id entry)) as [id|e]; [|done].
    destruct (VideoInfo.new (Some id) (e_title entry) (e_duration entry) (e_thumbnail entry)
                (Some []) (e_webpage_url entry) None None (e_uploader entry) (Some idx))
      as [v|e] eqn:Hv; [|done].
    destruct (playlist_entries (idx + 1) entries) as [vs|e] eqn:Hvs; [|done].
    intros [= <-]. destruct (IH _ _ Hvs) as [IH1 IH2].
    assert (VideoInfo.playlist_index v = Some idx ∧ VideoInfo.formats v = []) as [Hi Hf].
    { unfold VideoInfo.new in Hv.
      repeat (match type of Hv with
              | context [match ?x with _ => _ end] => destruct x; try done
              end).
      by injection Hv as <-. }
    split; [|by constructor].
    rewrite fmap_cons, Hi, IH1. done.
  - apply IH.
Qed.

(** The constructor call of get_playlist_info never validates. *)
Lemma PlaylistInfo_new_raises (id title uploader : option string)
    (videos : option (list VideoInfo.t)) (webpage_url : option string) :
  ∃ fields,
    PlaylistInfo.new id title uploader None videos webpage_url
    = Raise (ValidationError "PlaylistInfo" fields)
    ∧ "video_count" ∈ fields.
Proof.
  unfold PlaylistInfo.new.
  destruct id, title; (eexists; split; [reflexivity|]); simpl;
    rewrite ?elem_of_cons, ?elem_of_app; set_solver.
Qed.

Lemma get_playlist_info_raises (tool : Tool) (url : string) (s : State) :
  ∃ e s', get_playlist_info tool url s = (Raise e, s').
Proof.
  unfold get_playlist_info, try_except.
  cbv [mbind M_bind new_YoutubeDL lift raise print modify].
  destruct (extract_info _ url) as [[info|]|e]; [|eauto..].
  destruct (i_entries info) as [raw_entries|]; [|eauto].
  destruct (playlist_entries 1 raw_entries) as [entries|e]; [|eauto].
  destruct (getitem "id" (i_id info)) as [id|e]; [|eauto].
  destruct (PlaylistInfo_new_raises (Some id) (i_title info) (i_uploader info)
              (Some entries) (i_webpage_url info)) as (fields & -> & _).
  eauto.
Qed.

(** The statement [batch_progress.current_video_title = ...] *)
Lemma batch_try_raises (tool : Tool) (format_id : option string)
    (callback : option BatchCallback) (video : VideoInfo.t) (ls : BatchLocals * State) :
  ∃ msg, batch_try tool format_id callback video ls = (Raise (ValueError msg), ls).
Proof.
  destruct ls as [l s]. eexists. unfold batch_try. cbv [mbind Body_bind run lift].
  reflexivity.
Qed.

Lemma batch_loop_downloads_nothing (tool : Tool) (format_id : option string)
    (callback : option BatchCallback) (videos : list VideoInfo.t) (locals : BatchLocals)
    (s : State) :
  ∃ s',
    batch_loop tool format_id callback videos (locals, s) = (Ok (), (locals, s'))
    ∧ created s' = created s
    ∧ delivered s' = delivered s
    ∧ batch_delivered s' = batch_delivered s
    ∧ progress_callbacks s' = progress_callbacks s
    ∧ length (stdout s') = (length (stdout s) + length videos)%nat.
Proof.
  revert s. induction videos as [|video videos IH]; intros s.
  - exists s. simpl. repeat split; [done..|lia].
  - cbn [batch_loop]. cbv [mbind Body_bind body_try_except].
    destruct (batch_try_raises tool format_id callback video (locals, s)) as (msg & ->).
    cbv [run print modify].
    destruct (IH (add_stdout
                    (PrintedError ("Error downloading video " +:+ VideoInfo.title video +:+ ": ")
                       (ValueError msg)) s))
      as (s' & -> & Hc & Hd & Hb & Hp & Hn).
    exists s'. repeat split; [done..|].
    rewrite Hn. simpl. rewrite length_app. simpl. lia.
Qed.

Lemma batch_after_fetch_raises (tool : Tool) (format_id : option string)
    (callback : option BatchCallback) (playlist_info : PlaylistInfo.t) (s : State) :
  batch_after_fetch tool format_id callback playlist_info s
  = (Raise (ValidationError "BatchDownloadProgress" ["status"]), s).
Proof. done. Qed.
End Playlists.

(** C2 (the code departs from the claim): get_playlist_info never returns a
    PlaylistInfo.  Whatever the tool answers, the call ends in an exception:
    the constructor PlaylistInfo(...) is called without video_count, a field
    declared without a default.  For a playlist of seven entries of which the
    second and the fifth are empty, the loop over the entries does build five
    VideoInfo objects with playlist_index 1, 3, 4, 6, 7 and empty formats, and
    the call then raises ValidationError for video_count. *)
Theorem get_playlist_info_never_returns :
  (∀ (F : PythonFloats) (tool : Tool) (url : string) (s : State),
     ∃ e s', get_playlist_info tool url s = (Raise e, s'))
  ∧ (∃ videos,
       @playlist_entries sample_floats 1 seven_entries = Ok videos
       ∧ VideoInfo.playlist_index <$> videos = [Some 1; Some 3; Some 4; Some 6; Some 7]
       ∧ Forall (λ v, VideoInfo.formats v = []) videos)
  ∧ (@get_playlist_info sample_floats (playlist_tool seven_entries EmptyString)
       "https://www.youtube.com/playlist?list=PL1" fresh_service).1
    = Raise (ValidationError "PlaylistInfo" ["video_count"]).
Proof.
  split; [|split].
  - intros F tool url s. apply get_playlist_info_raises.
  - eexists. split; [vm_compute; reflexivity|]. split; [reflexivity|].
    repeat constructor.
  - vm_compute. reflexivity.
Qed.

(** C1 (the code departs from the claim): batch_download_playlist never
    returns a list.  The call always ends in an exception, because the
    playlist fetch always raises (C2).  Were a PlaylistInfo at hand, the
    next statement would raise as well: BatchDownloadProgress(...) is called
    without status.  And were a BatchDownloadProgress at hand, every
    iteration of the loop would raise at its first statement (an assignment
    to current_video_title, which is no field) and be skipped: nothing is
    downloaded, completed_videos and the list of files stay as they are,
    failed_videos is never written, one line is printed per entry.  The call
    of download_video in the loop names a keyword, progress_hooks, that
    download_video does not have, and would raise TypeError.  For the
    playlist of five entries of the specification's example the call raises
    ValidationError for PlaylistInfo.video_count. *)
Theorem batch_download_playlist_never_returns :
  (∀ (F : PythonFloats) (tool : Tool) (url : string) (format_id : option string)
     (callback : option BatchCallback) (s : State),
     ∃ e s', batch_download_playlist tool url format_id callback s = (Raise e, s'))
  ∧ (∀ (F : PythonFloats) (tool : Tool) (format_id : option string)
       (callback : option BatchCallback) (playlist_info : PlaylistInfo.t) (s : State),
       batch_after_fetch tool format_id callback playlist_info s
       = (Raise (ValidationError "BatchDownloadProgress" ["status"]), s))
  ∧ (∀ (F : PythonFloats) (tool : Tool) (format_id : option string)
       (callback : option BatchCallback) (videos : list VideoInfo.t)
       (locals : BatchLocals) (s : State),
       ∃ s',
         batch_loop tool format_id callback videos (locals, s) = (Ok (), (locals, s'))
         ∧ created s' = created s
         ∧ batch_delivered s' = batch_delivered s
         ∧ length (stdout s') = (length (stdout s) + length videos)%nat)
  ∧ (∀ (F : PythonFloats) (tool : Tool) (url : string) (format_id : option string)
       (s : State),
       call_download_video tool ["format_id"; "progress_hooks"] url format_id s
       = (Raise (TypeError
                   "download_video() got an unexpected keyword argument 'progress_hooks'"),
          s))
  ∧ (@batch_download_playlist sample_floats
       (playlist_tool five_entries "https://www.youtube.com/watch?v=v3")
       "https://www.youtube.com/playlist?list=PL1" None None fresh_service).1
    = Raise (ValidationError "PlaylistInfo" ["video_count"]).
Proof.
  split; [|split; [|split; [|split]]].
  - intros F tool url format_id callback s.
    unfold batch_download_playlist, try_except. cbv [mbind M_bind].
    destruct (get_playlist_info_raises tool url s) as (e & s' & ->).
    cbv [print modify raise]. eauto.
  - intros F tool format_id callback playlist_info s. apply batch_after_fetch_raises.
  - intros F tool format_id callback videos locals s.
    destruct (batch_loop_downloads_nothing tool format_id callback videos locals s)
      as (s' & Hrun & Hc & _ & Hb & _ & Hn).
    eauto.
  - intros F tool url format_id s. reflexivity.
  - vm_compute. reflexivity.
Qed.

(** * Further properties of the Format Selector *)

Section FormatSelectorMore.
Context `{PythonFloats}.

Lemma format_entry_cases (f : RawFormat) :
  match format_entry f with
  | Ok _ => carries_ids f
  | Raise e => (e = KeyError "format_id" ∨ e = KeyError "ext") ∧ ¬ carries_ids f
  end.
Proof.
  unfold format_entry, carries_ids.
  destruct (r_format_id f) as [fid|]; simpl.
  - destruct (r_ext f) as [e|]; simpl.
    + split; eauto.
    + split; [by right|]. intros [_ [? ?]]. done.
  - split; [by left|]. intros [[? ?] _]. done.
Qed.

Lemma collect_formats_cases (fs : list RawFormat) :
  match collect_formats fs with
  | Ok kept =>
      Forall carries_ids (filter inclusion_rule fs)
      ∧ length kept = length (filter inclusion_rule fs)
  | Raise e =>
      (e = KeyError "format_id" ∨ e = KeyError "ext")
      ∧ Exists (λ f, ¬ carries_ids f) (filter inclusion_rule fs)
  end.
Proof.
  rewrite filter_included.
  induction fs as [|f fs IH]; cbn [collect_formats]; [by split|].
  rewrite filter_cons. destruct (decide (included f = true)) as [Hf|Hf].
  - rewrite Hf. cbv [mbind result_mbind result_bind].
    pose proof (format_entry_cases f) as Hentry.
    destruct (format_entry f) as [o|e].
    + destruct (collect_formats fs) as [kept|e].
      * destruct IH as [IH1 IH2]. split; [by constructor|]. simpl. by rewrite IH2.
      * destruct IH as [IH1 IH2]. split; [done|]. by apply Exists_cons_tl.
    + destruct Hentry as [He Hbad]. split; [done|]. by apply Exists_cons_hd.
  - apply not_true_is_false in Hf. rewrite Hf. exact IH.
Qed.

(** X1: the Format Selector fails only on a missing key.  It returns exactly
    when every record that passes the inclusion rule carries format_id and
    ext, and then with one entry per such record; otherwise it raises
    KeyError for 'format_id' or for 'ext'.  Records that do not pass the rule
    may lack either key. *)
Theorem select_formats_missing_key (fs : list RawFormat) :
  match select_formats fs with
  | Ok out =>
      Forall carries_ids (filter inclusion_rule fs)
      ∧ length out = length (filter inclusion_rule fs)
  | Raise e =>
      (e = KeyError "format_id" ∨ e = KeyError "ext")
      ∧ Exists (λ f, ¬ carries_ids f) (filter inclusion_rule fs)
  end.
Proof.
  unfold select_formats. cbv [mbind result_mbind result_bind].
  pose proof (collect_formats_cases fs) as Hcases.
  destruct (collect_formats fs) as [kept|e]; [|done].
  destruct Hcases as [Hids Hlen]. split; [done|].
  by rewrite (Permutation_length (sort_by_tbr_perm kept)).
Qed.

Lemma classification_stream_word (f : RawFormat) :
  classification f = stream_word (py_ne (r_acodec f) "none") (py_ne (r_vcodec f) "none").
Proof.
  unfold classification, stream_word.
  destruct (decide (codec_absent (r_acodec f))) as [Ha|Ha].
  - apply py_eq_absent in Ha. unfold py_ne. by rewrite Ha.
  - apply py_ne_absent in Ha. rewrite Ha.
    destruct (decide (codec_absent (r_vcodec f))) as [Hv|Hv].
    + apply py_eq_absent in Hv. unfold py_ne. by rewrite Hv.
    + apply py_ne_absent in Hv. by rewrite Hv.
Qed.

(** X2: in every entry of the output the last word of format_note agrees
    with the flags: "video+audio" when has_audio and has_video are both
    true, "audio-only" when only has_audio is, "video-only" when has_audio
    is false; at most two parts (height, fps) stand before it. *)
Theorem format_note_matches_flags (fs : list RawFormat) (out : list FormatOption) :
  select_formats fs = Ok out →
  Forall (λ o, ∃ parts,
            format_note o
            = str_join " " (parts ++ [stream_word (has_audio o) (has_video o)])
            ∧ (length parts ≤ 2)%nat) out.
Proof.
  unfold select_formats. cbv [mbind result_mbind result_bind].
  destruct (collect_formats fs) as [kept|e] eqn:Hkept; [|done]. intros [= <-].
  rewrite sort_by_tbr_perm.
  pose proof (collect_formats_entries fs kept Hkept) as Hentries. clear Hkept.
  induction Hentries as [|f o l kept' Hfo _ IH]; [constructor|].
  constructor; [|done].
  destruct (format_entry_inv f o Hfo) as (_ & _ & _ & _ & Hnote & Ha & Hv).
  exists (with_unit "p" (nonzero (r_height f)) ++ with_unit "fps" (nonzero (r_fps f)))%list.
  split.
  - rewrite Hnote, note_parts_composition, classification_stream_word, Ha, Hv.
    by rewrite <- app_assoc.
  - rewrite length_app. destruct (nonzero (r_height f)), (nonzero (r_fps f)); simpl; lia.
Qed.
End FormatSelectorMore.

Lemma format_note_matches_flags_witness :
  @select_formats sample_floats sample_formats = Ok sample_selected
  ∧ Forall (λ o, ∃ parts,
              format_note o
              = str_join " " (parts ++ [stream_word (has_audio o) (has_video o)])
              ∧ (length parts ≤ 2)%nat) sample_selected.
Proof.
  split; [reflexivity|].
  apply (@format_note_matches_flags sample_floats sample_formats). reflexivity.
Defined.

(** * get_video_info *)

Section GetVideoInfo.
Context `{PythonFloats}.

Lemma VideoInfo_new_cases (id : string) (title : option string) (duration : option number)
    (thumbnail : option string) (formats : list FormatOption)
    (webpage_url description : option string) (view_count : option number)
    (uploader : option string) (playlist_index : option Z) :
  match VideoInfo.new (Some id) title duration thumbnail (Some formats) webpage_url
          description view_count uploader playlist_index with
  | Ok v =>
      title = Some (VideoInfo.title v)
      ∧ duration ≫= as_int = Some (VideoInfo.duration v)
      ∧ thumbnail = Some (VideoInfo.thumbnail v)
      ∧ webpage_url = Some (VideoInfo.webpage_url v)
      ∧ optional_int view_count = Some (VideoInfo.view_count v)
      ∧ VideoInfo.id v = id ∧ VideoInfo.formats v = formats
      ∧ VideoInfo.description v = description ∧ VideoInfo.uploader v = uploader
      ∧ VideoInfo.playlist_index v = playlist_index
  | Raise e =>
      (∃ fields, e = ValidationError "VideoInfo" fields)
      ∧ ¬ (is_Some title ∧ is_Some (duration ≫= as_int) ∧ is_Some thumbnail
           ∧ is_Some webpage_url ∧ is_Some (optional_int view_count))
  end.
Proof.
  unfold VideoInfo.new.
  destruct title as [t|]; [|split; [eauto|intros ([? ?] & _); done]].
  destruct (duration ≫= as_int) as [d|];
    [|split; [eauto|intros (_ & [? ?] & _); done]].
  destruct thumbnail as [th|]; [|split; [eauto|intros (_ & _ & [? ?] & _); done]].
  destruct webpage_url as [u|]; [|split; [eauto|intros (_ & _ & _ & [? ?] & _); done]].
  destruct (optional_int view_count) as [vc|];
    [|split; [eauto|intros (_ & _ & _ & _ & [? ?]); done]].
  simpl. repeat split.
Qed.

(** X3: when the tool returns a record that carries id, title, a duration
    that validates as an integer, thumbnail and webpage_url (and a view
    count that validates, if any), and the Format Selector returns on its
    formats (on the empty list when the record has no 'formats' key),
    get_video_info returns a VideoInfo with these fields copied, the
    selector's output as formats and the caller's playlist_index unchanged;
    its one effect is the creation of a tool instance with the metadata-only
    options. *)
Theorem get_video_info_returns (tool : Tool) (url : string) (playlist_index : option Z)
    (s : State) (info : Info) (formats : list FormatOption) (id title : string)
    (duration : Z) (thumbnail webpage_url : string) (view_count : option Z) :
  extract_info (tool (length (created s)) (info_ydl_opts false)) url = Ok (Some info) →
  select_formats (default [] (i_formats info)) = Ok formats →
  i_id info = Some id →
  i_title info = Some title →
  i_duration info ≫= as_int = Some duration →
  i_thumbnail info = Some thumbnail →
  i_webpage_url info = Some webpage_url →
  optional_int (i_view_count info) = Some view_count →
  get_video_info tool url playlist_index s
  = (Ok {| VideoInfo.id := id; VideoInfo.title := title; VideoInfo.duration := duration;
           VideoInfo.thumbnail := thumbnail; VideoInfo.formats := formats;
           VideoInfo.webpage_url := webpage_url;
           VideoInfo.description := i_description info;
           VideoInfo.view_count := view_count; VideoInfo.uploader := i_uploader info;
           VideoInfo.playlist_index := playlist_index |},
     add_created (info_ydl_opts false) s).
Proof.
  intros Hinfo Hformats Hid Htitle Hduration Hthumbnail Hurl Hcount.
  unfold get_video_info, try_except. cbv [mbind M_bind new_YoutubeDL lift raise].
  rewrite Hinfo, Hformats, Hid. cbn [getitem].
  unfold VideoInfo.new. rewrite Htitle, Hduration, Hthumbnail, Hurl, Hcount. done.
Qed.

(** X4: get_video_info passes every failure on as it is, and in every case
    its one effect is the creation of a tool instance.  An error of the tool
    is raised unchanged; a falsy result gives Exception("No video information
    found"); a KeyError of the Format Selector is raised unchanged; a record
    without id gives KeyError('id'); a record with id returns exactly when
    it carries title, duration, thumbnail and webpage_url and its duration
    and view count validate, and gives ValidationError otherwise. *)
Theorem get_video_info_failures (tool : Tool) (url : string) (playlist_index : option Z)
    (s : State) :
  let result := get_video_info tool url playlist_index s in
  result.2 = add_created (info_ydl_opts false) s
  ∧ match extract_info (tool (length (created s)) (info_ydl_opts false)) url with
    | Raise e => result.1 = Raise e
    | Ok None => result.1 = Raise (Exception "No video information found")
    | Ok (Some info) =>
        match select_formats (default [] (i_formats info)) with
        | Raise e => result.1 = Raise e
        | Ok _ =>
            match i_id info with
            | None => result.1 = Raise (KeyError "id")
            | Some _ =>
                (complete_info info ∧ is_Ok result.1 = true)
                ∨ (¬ complete_info info
                   ∧ ∃ fields, result.1 = Raise (ValidationError "VideoInfo" fields))
            end
        end
    end.
Proof.
  unfold get_video_info, try_except. cbv [mbind M_bind new_YoutubeDL lift raise].
  destruct (extract_info _ url) as [[info|]|e]; [|by split..].
  destruct (select_formats (default [] (i_formats info))) as [formats|e]; [|by split].
  destruct (i_id info) as [id|] eqn:Hid; cbn [getitem]; [|by split].
  pose proof (VideoInfo_new_cases id (i_title info) (i_duration info) (i_thumbnail info)
                formats (i_webpage_url info) (i_description info) (i_view_count info)
                (i_uploader info) playlist_index) as Hnew.
  destruct (VideoInfo.new _ _ _ _ _ _ _ _ _ _) as [v|e].
  - split; [done|]. left. split; [|done].
    destruct Hnew as (Ht & Hd & Hth & Hu & Hvc & _).
    unfold complete_info. rewrite Hid, Ht, Hd, Hth, Hu, Hvc. repeat split; eauto.
  - split; [done|]. right. destruct Hnew as [[fields ->] Hnot]. split; [|eauto].
    unfold complete_info. intros (_ & Hrest). by apply Hnot.
Qed.
End GetVideoInfo.

Lemma get_video_info_returns_witness :
  let url := "https://www.youtube.com/watch?v=dQw4w9WgXcQ" in
  extract_info (sample_tool (length (created fresh_service)) (info_ydl_opts false)) url
  = Ok (Some sample_info)
  ∧ @select_formats sample_floats (default [] (i_formats sample_info)) = Ok sample_selected
  ∧ i_id sample_info = Some "dQw4w9WgXcQ"
  ∧ i_title sample_info = Some "Sample"
  ∧ i_duration sample_info ≫= @as_int sample_floats = Some 212
  ∧ i_thumbnail sample_info = Some "https://i.ytimg.com/vi/dQw4w9WgXcQ/default.jpg"
  ∧ i_webpage_url sample_info = Some "https://www.youtube.com/watch?v=dQw4w9WgXcQ"
  ∧ @optional_int sample_floats (i_view_count sample_info) = Some None
  ∧ @get_video_info sample_floats sample_tool url (Some 7) fresh_service
    = (Ok {| VideoInfo.id := "dQw4w9WgXcQ"; VideoInfo.title := "Sample";
             VideoInfo.duration := 212;
             VideoInfo.thumbnail := "https://i.ytimg.com/vi/dQw4w9WgXcQ/default.jpg";
             VideoInfo.formats := sample_selected;
             VideoInfo.webpage_url := "https://www.youtube.com/watch?v=dQw4w9WgXcQ";
             VideoInfo.description := i_description sample_info;
             VideoInfo.view_count := None; VideoInfo.uploader := i_uploader sample_info;
             VideoInfo.playlist_index := Some 7 |},
       add_created (info_ydl_opts false) fresh_service).
Proof.
  intros url. repeat (split; [reflexivity|]).
  apply (@get_video_info_returns sample_floats sample_tool url (Some 7) fresh_service
           sample_info); reflexivity.
Defined.

(** * Further properties of get_playlist_info and batch_download_playlist *)

Section PlaylistsMore.
Context `{PythonFloats}.

Lemma numbered_lookup (idx : Z) (entries : list (option Entry)) (pos : Z) (e : Entry) :
  (pos, e) ∈ numbered idx entries
  ↔ ∃ i : nat, entries !! i = Some (Some e) ∧ pos = idx + Z.of_nat i.
Proof.
  revert idx. induction entries as [|[e'|] entries IH]; intros idx; cbn [numbered].
  - split; [by intros ?%elem_of_nil|by intros (i & ? & _)].
  - rewrite elem_of_cons, IH. split.
    + intros [[= -> ->]|(i & Hi & ->)].
      * exists 0%nat. split; [done|lia].
      * exists (S i). split; [done|lia].
    + intros ([|i] & Hi & ->).
      * left. injection Hi as ->. f_equal. lia.
      * right. exists i. split; [done|lia].
  - rewrite IH. split.
    + intros (i & Hi & ->). exists (S i). split; [done|lia].
    + intros ([|i] & Hi & ->); [done|]. exists i. split; [done|lia].
Qed.

(** X5: when the loop over the entries of a playlist returns, its videos
    are, in order, one for each entry that is not empty; each has the
    1-based position of its entry among all entries (empty ones counted) as
    playlist_index, the entry's id, title, thumbnail, webpage_url and
    uploader, empty formats and no description or view count. *)
Theorem playlist_entries_videos (entries : list (option Entry)) (videos : list VideoInfo.t) :
  playlist_entries 1 entries = Ok videos →
  Forall2 video_of_entry (numbered 1 entries) videos
  ∧ ∀ pos e, (pos, e) ∈ numbered 1 entries
             ↔ ∃ i : nat, entries !! i = Some (Some e) ∧ pos = 1 + Z.of_nat i.
Proof.
  intros Hrun. split; [|intros pos e; apply numbered_lookup].
  revert videos Hrun. generalize 1. 
  induction entries as [|[entry|] entries IH]; intros idx videos; cbn [playlist_entries numbered].
  - intros [= <-]. constructor.
  - cbv [mbind result_mbind result_bind].
    destruct (e_id entry) as [id|] eqn:Hid; cbn [getitem]; [|done].
    pose proof (VideoInfo_new_cases id (e_title entry) (e_duration entry) (e_thumbnail entry)
                  [] (e_webpage_url entry) None None (e_uploader entry) (Some idx)) as Hnew.
    destruct (VideoInfo.new _ _ _ _ _ _ _ _ _ _) as [v|e]; [|done].
    destruct (playlist_entries (idx + 1) entries) as [vs|e] eqn:Hvs; [|done].
    intros [= <-]. constructor; [|by apply IH].
    destruct Hnew as (Ht & _ & Hth & Hu & Hvc & Hi & Hf & Hd & Hup & Hpi).
    unfold video_of_entry. simpl. rewrite Hid, Hi.
    injection Hvc as Hvc. repeat split; done.
  - apply IH.
Qed.

(** X6: an empty entry is skipped, a malformed one is not.  The loop over
    the entries returns, with one video per non-empty entry, exactly when
    every non-empty entry carries id, title, a duration that validates as an
    integer, thumbnail and webpage_url; otherwise it raises KeyError('id') or
    ValidationError for VideoInfo. *)
Theorem playlist_entries_malformed (idx : Z) (entries : list (option Entry)) :
  match playlist_entries idx entries with
  | Ok videos =>
      Forall complete_entry (omap id entries)
      ∧ length videos = length (omap id entries)
  | Raise e =>
      (e = KeyError "id" ∨ ∃ fields, e = ValidationError "VideoInfo" fields)
      ∧ Exists (λ entry, ¬ complete_entry entry) (omap id entries)
  end.
Proof.
  revert idx. induction entries as [|[entry|] entries IH]; intros idx;
    cbn [playlist_entries omap list_omap]; [by split| |apply IH].
  cbv [mbind result_mbind result_bind]. change (id (Some entry)) with (Some entry).
  cbv iota beta.
  destruct (e_id entry) as [eid|] eqn:Hid; cbn [getitem].
  2: { split; [by left|]. apply Exists_cons_hd. unfold complete_entry. rewrite Hid.
       intros ([? ?] & _). done. }
  pose proof (VideoInfo_new_cases eid (e_title entry) (e_duration entry) (e_thumbnail entry)
                [] (e_webpage_url entry) None None (e_uploader entry) (Some idx)) as Hnew.
  destruct (VideoInfo.new _ _ _ _ _ _ _ _ _ _) as [v|e].
  - destruct Hnew as (Ht & Hd & Hth & Hu & _).
    assert (complete_entry entry) as Hcomplete.
    { unfold complete_entry. rewrite Hid, Ht, Hd, Hth, Hu. repeat split; eauto. }
    specialize (IH (idx + 1)).
    destruct (playlist_entries (idx + 1) entries) as [vs|e].
    + destruct IH as [IH1 IH2]. split; [by constructor|]. simpl. by rewrite IH2.
    + destruct IH as [IH1 IH2]. split; [done|]. by apply Exists_cons_tl.
  - destruct Hnew as [[fields ->] Hnot]. split; [right; eauto|].
    apply Exists_cons_hd. unfold complete_entry. intros (_ & Ht & Hd & Hth & Hu).
    apply Hnot. repeat split; [done..|]. by eexists.
Qed.
End PlaylistsMore.

Lemma playlist_entries_videos_witness :
  @playlist_entries sample_floats 1 seven_entries = Ok seven_videos
  ∧ Forall2 video_of_entry (numbered 1 seven_entries) seven_videos
  ∧ ∀ pos e, (pos, e) ∈ numbered 1 seven_entries
             ↔ ∃ i : nat, seven_entries !! i = Some (Some e) ∧ pos = 1 + Z.of_nat i.
Proof.
  split; [reflexivity|].
  apply (@playlist_entries_videos sample_floats seven_entries seven_videos). reflexivity.
Defined.

Section PlaylistFailures.
Context `{PythonFloats}.

Lemma get_playlist_info_printed (tool : Tool) (url : string) (s : State) :
  ∃ e,
    get_playlist_info tool url s
    = (Raise e,
       add_stdout (PrintedError "Error fetching playlist info: " e)
         (add_created (info_ydl_opts true) s)).
Proof.
  unfold get_playlist_info, try_except.
  cbv [mbind M_bind new_YoutubeDL lift raise print modify].
  destruct (extract_info _ url) as [[info|]|e]; [|by eauto..].
  destruct (i_entries info) as [raw_entries|]; [|by eauto].
  destruct (playlist_entries 1 raw_entries) as [entries|e]; [|by eauto].
  destruct (i_id info) as [id|]; cbn [getitem]; [|by eauto].
  destruct (PlaylistInfo_new_raises (Some id) (i_title info) (i_uploader info)
              (Some entries) (i_webpage_url info)) as (fields & -> & Hfield).
  eauto.
Qed.

(** X7: get_playlist_info reports every failure the same way: it creates
    one tool instance with the flat-enumeration options, prints one line
    "Error fetching playlist info: ..." and raises the error unchanged.  The
    error is the tool's own when the tool raises, Exception("No playlist
    information found") for a falsy result, Exception("URL is not a
    playlist") for a record without 'entries', the error of the loop over
    the entries when that loop raises, KeyError('id') for a playlist record
    without id, and else ValidationError for PlaylistInfo naming
    video_count. *)
Theorem get_playlist_info_failures (tool : Tool) (url : string) (s : State) :
  ∃ e,
    get_playlist_info tool url s
    = (Raise e,
       add_stdout (PrintedError "Error fetching playlist info: " e)
         (add_created (info_ydl_opts true) s))
    ∧ match extract_info (tool (length (created s)) (info_ydl_opts true)) url with
      | Raise e' => e = e'
      | Ok None => e = Exception "No playlist information found"
      | Ok (Some info) =>
          match i_entries info with
          | None => e = Exception "URL is not a playlist"
          | Some entries =>
              match playlist_entries 1 entries with
              | Raise e' => e = e'
              | Ok _ =>
                  match i_id info with
                  | None => e = KeyError "id"
                  | Some _ =>
                      ∃ fields, e = ValidationError "PlaylistInfo" fields
                                ∧ "video_count" ∈ fields
                  end
              end
          end
      end.
Proof.
  unfold get_playlist_info, try_except.
  cbv [mbind M_bind new_YoutubeDL lift raise print modify].
  destruct (extract_info _ url) as [[info|]|e]; [|by eauto..].
  destruct (i_entries info) as [raw_entries|]; [|by eauto].
  destruct (playlist_entries 1 raw_entries) as [entries|e]; [|by eauto].
  destruct (i_id info) as [id|]; cbn [getitem]; [|by eauto].
  destruct (PlaylistInfo_new_raises (Some id) (i_title info) (i_uploader info)
              (Some entries) (i_webpage_url info)) as (fields & -> & Hfield).
  eauto.
Qed.

(** X8: batch_download_playlist stops at the fetch.  Every call creates the
    one tool instance of the playlist fetch and no other, prints two lines
    for the same error ("Error fetching playlist info: ..." and "Error in
    batch download: ..."), and raises that error unchanged; the batch
    callback is never called, no progress object is delivered and the
    registry is as before. *)
Theorem batch_download_playlist_effects (tool : Tool) (url : string)
    (format_id : option string) (callback : option BatchCallback) (s : State) :
  ∃ e,
    batch_download_playlist tool url format_id callback s
    = (Raise e,
       add_stdout (PrintedError "Error in batch download: " e)
         (add_stdout (PrintedError "Error fetching playlist info: " e)
            (add_created (info_ydl_opts true) s)))
    ∧ (get_playlist_info tool url s).1 = Raise e
    ∧ let s' := (batch_download_playlist tool url format_id callback s).2 in
      created s' = (created s ++ [info_ydl_opts true])%list
      ∧ batch_delivered s' = batch_delivered s
      ∧ delivered s' = delivered s
      ∧ progress_callbacks s' = progress_callbacks s.
Proof.
  destruct (get_playlist_info_printed tool url s) as (e & Hrun).
  exists e. unfold batch_download_playlist, try_except. cbv [mbind M_bind].
  rewrite Hrun. done.
Qed.
End PlaylistFailures.

(** * Further properties of the progress hook *)

Section ProgressHookMore.
Context `{PythonFloats}.

Lemma downloading_progress_cases (vid : string) (d : HookEvent) :
  match downloading_progress vid d with
  | Ok p =>
      DownloadProgress.status p = "downloading"
      ∧ DownloadProgress.video_id p = vid
      ∧ DownloadProgress.title p = default "Unknown" (i_title (event_info d))
      ∧ optional_int (d_downloaded_bytes d) = Some (DownloadProgress.downloaded_bytes p)
      ∧ optional_int (py_or number_truthy (d_total_bytes d) (d_total_bytes_estimate d))
        = Some (DownloadProgress.total_bytes p)
      ∧ DownloadProgress.speed p = to_Q <$> d_speed d
      ∧ optional_int (d_eta d) = Some (DownloadProgress.eta p)
      ∧ DownloadProgress.filename p = d_filename d
      ∧ optional_int (d_fragment_index d) = Some (DownloadProgress.fragment_index p)
      ∧ optional_int (d_fragment_count d) = Some (DownloadProgress.fragment_count p)
  | Raise _ => ¬ numbers_validate d
  end.
Proof.
  unfold downloading_progress, DownloadProgress.new, numbers_validate.
  destruct (optional_int (d_downloaded_bytes d)) as [db|];
    [|intros ([? ?] & _); done].
  destruct (optional_int (py_or number_truthy (d_total_bytes d) (d_total_bytes_estimate d)))
    as [tb|]; [|intros (_ & [? ?] & _); done].
  destruct (optional_int (d_eta d)) as [et|]; [|intros (_ & _ & [? ?] & _); done].
  cbn [optional_int].
  destruct (optional_int (d_fragment_index d)) as [fi|];
    [|intros (_ & _ & _ & [? ?] & _); done].
  destruct (optional_int (d_fragment_count d)) as [fc|];
    [|intros (_ & _ & _ & _ & [? ?]); done].
  simpl. repeat split.
Qed.

Lemma hook_try_forwarded (vid : string) (cb : Callback) (d : HookEvent) (s : State) :
  try_except (hook_try vid cb d) (λ _, mret ()) s
  = (Ok (), deliver (option_list (forwarded_object vid d)) s).
Proof.
  unfold hook_try, forwarded_object. rewrite try_except_lift.
  destruct (d_status d) as [status|]; cbn [getitem]; [|by rewrite deliver_nil].
  destruct (String.eqb status "downloading").
  - rewrite try_except_lift. destruct (downloading_progress vid d) as [p|e].
    + by rewrite call_callback_caught.
    + by rewrite deliver_nil.
  - destruct (String.eqb status "finished"); [|by rewrite deliver_nil].
    cbv zeta.
    destruct (endswith_any (default EmptyString (d_filename d)) intermediate_suffixes);
      [by rewrite deliver_nil|].
    rewrite try_except_lift.
    destruct (finished_progress vid d (default EmptyString (d_filename d))) as [p|e].
    + by rewrite call_callback_caught.
    + by rewrite deliver_nil.
Qed.

Lemma progress_hook_forwarded (d : HookEvent) (s : State) :
  _progress_hook d s
  = (Ok (),
     deliver
       (match i_id (event_info d) with
        | Some vid =>
            if str_truthy vid && bool_decide (is_Some (progress_callbacks s !! vid))
            then option_list (forwarded_object vid d)
            else []
        | None => []
        end) s).
Proof.
  unfold _progress_hook. cbv [mbind M_bind get_state].
  destruct (i_id (event_info d)) as [vid|]; [|by rewrite deliver_nil].
  destruct (str_truthy vid); cbn [negb andb]; [|by rewrite deliver_nil].
  destruct (progress_callbacks s !! vid) as [cb|] eqn:Hcb.
  - rewrite bool_decide_true by eauto. apply hook_try_forwarded.
  - rewrite bool_decide_false by (by intros [? ?]). by rewrite deliver_nil.
Qed.

Lemma forwarded_object_fields (vid : string) (d : HookEvent) (p : DownloadProgress.t) :
  forwarded_object vid d = Some p →
  DownloadProgress.video_id p = vid
  ∧ d_status d = Some (DownloadProgress.status p)
  ∧ (DownloadProgress.status p = "downloading" ∨ DownloadProgress.status p = "finished").
Proof.
  unfold forwarded_object. destruct (d_status d) as [status|]; [|done].
  destruct (String.eqb_spec status "downloading") as [->|_].
  - pose proof (downloading_progress_cases vid d) as Hp.
    destruct (downloading_progress vid d) as [p'|]; [|done].
    intros [= <-]. destruct Hp as (Hst & Hvid & _). rewrite Hst. eauto.
  - destruct (String.eqb_spec status "finished") as [->|_]; [|done]. cbv zeta.
    destruct (endswith_any _ _); [done|].
    destruct (finished_progress_returns vid d (default EmptyString (d_filename d)))
      as (p' & -> & Hst & Hvid & _).
    intros [= <-]. rewrite Hst. eauto.
Qed.

(** X9: one call of the progress hook hands at most one object to a
    callback and changes nothing else: the registry, the log of created
    instances and the printed lines stay as they are.  An object that is
    handed over carries the event's identifier, which has a registered
    callback, and the event's status, 'downloading' or 'finished'. *)
Theorem progress_hook_at_most_one (d : HookEvent) (s : State) :
  ∃ new,
    _progress_hook d s = (Ok (), deliver new s)
    ∧ (length new ≤ 1)%nat
    ∧ Forall (λ p, i_id (event_info d) = Some (DownloadProgress.video_id p)
                   ∧ is_Some (progress_callbacks s !! DownloadProgress.video_id p)
                   ∧ d_status d = Some (DownloadProgress.status p)
                   ∧ (DownloadProgress.status p = "downloading"
                      ∨ DownloadProgress.status p = "finished")) new.
Proof.
  eexists. split; [apply progress_hook_forwarded|].
  destruct (i_id (event_info d)) as [vid|]; [|split; [simpl; lia|constructor]].
  destruct (str_truthy vid); cbn [andb]; [|split; [simpl; lia|constructor]].
  destruct (decide (is_Some (progress_callbacks s !! vid))) as [Hreg|Hreg].
  - rewrite bool_decide_true by done.
    destruct (forwarded_object vid d) as [p|] eqn:Hp; [|split; [simpl; lia|constructor]].
    split; [simpl; lia|]. constructor; [|constructor].
    destruct (forwarded_object_fields vid d p Hp) as (-> & Hst & Hor). done.
  - rewrite bool_decide_false by done. split; [simpl; lia|constructor].
Qed.

(** X10: an event whose status is neither 'downloading' nor 'finished' (an
    error report, say), or that has no status, is ignored: the hook returns
    normally and the state is as before, whether or not a callback is
    registered for the event's identifier. *)
Theorem progress_hook_other_status (d : HookEvent) (s : State) :
  d_status d ≠ Some "downloading" → d_status d ≠ Some "finished" →
  _progress_hook d s = (Ok (), s).
Proof.
  intros Hdown Hfin. rewrite progress_hook_forwarded.
  assert (∀ vid, forwarded_object vid d = None) as Hnone.
  { intros vid. unfold forwarded_object. destruct (d_status d) as [status|]; [|done].
    destruct (String.eqb_spec status "downloading") as [->|_]; [done|].
    destruct (String.eqb_spec status "finished") as [->|_]; done. }
  destruct (i_id (event_info d)) as [vid|]; [|by rewrite deliver_nil].
  rewrite Hnone. destruct (_ && _); by rewrite deliver_nil.
Qed.

(** X11: a 'downloading' event for a registered identifier is forwarded
    whenever its numbers validate, and dropped without a trace otherwise.
    The object forwarded carries the event's downloaded_bytes, speed, eta,
    filename and fragment counters, the title of the info dict ('Unknown'
    when there is none), and as total_bytes the event's total_bytes, or its
    total_bytes_estimate when total_bytes is missing or zero. *)
Theorem downloading_forwarded (d : HookEvent) (s : State) (vid : string) :
  i_id (event_info d) = Some vid → str_truthy vid = true →
  is_Some (progress_callbacks s !! vid) → d_status d = Some "downloading" →
  let total :=
    match d_total_bytes d with
    | Some n => if number_truthy n then Some n else d_total_bytes_estimate d
    | None => d_total_bytes_estimate d
    end in
  (numbers_validate d
   ∧ ∃ p, _progress_hook d s = (Ok (), deliver [p] s)
          ∧ DownloadProgress.status p = "downloading"
          ∧ DownloadProgress.video_id p = vid
          ∧ DownloadProgress.title p = default "Unknown" (i_title (event_info d))
          ∧ optional_int (d_downloaded_bytes d) = Some (DownloadProgress.downloaded_bytes p)
          ∧ optional_int total = Some (DownloadProgress.total_bytes p)
          ∧ DownloadProgress.speed p = to_Q <$> d_speed d
          ∧ optional_int (d_eta d) = Some (DownloadProgress.eta p)
          ∧ DownloadProgress.filename p = d_filename d
          ∧ optional_int (d_fragment_index d) = Some (DownloadProgress.fragment_index p)
          ∧ optional_int (d_fragment_count d) = Some (DownloadProgress.fragment_count p))
  ∨ (¬ numbers_validate d ∧ _progress_hook d s = (Ok (), s)).
Proof.
  intros Hid Hvid Hreg Hst total.
  assert (total = py_or number_truthy (d_total_bytes d) (d_total_bytes_estimate d)) as ->.
  { unfold total, py_or, truthy. by destruct (d_total_bytes d). }
  rewrite progress_hook_forwarded, Hid, Hvid. rewrite bool_decide_true by done.
  cbn [andb]. unfold forwarded_object. rewrite Hst. cbn [String.eqb Ascii.eqb Bool.eqb].
  pose proof (downloading_progress_cases vid d) as Hp.
  destruct (downloading_progress vid d) as [p|e].
  - left. destruct Hp as (H1 & H2 & H3 & H4 & H5 & H6 & H7 & H8 & H9 & H10).
    split.
    + unfold numbers_validate. rewrite H4, H5, H7, H9, H10. repeat split; eauto.
    + exists p. repeat split; done.
  - right. split; [done|]. by rewrite deliver_nil.
Qed.

(** X12: what a callback does with an object makes no difference to the
    hook.  With either of two callbacks registered for an identifier, the
    hook returns normally on every event, records the same objects as handed
    over, and prints nothing: a callback that raises leaves no trace. *)
Theorem callback_failure_invisible (d : HookEvent) (s : State) (vid : string)
    (cb1 cb2 : Callback) :
  let r1 := _progress_hook d (register vid cb1 s) in
  let r2 := _progress_hook d (register vid cb2 s) in
  r1.1 = Ok () ∧ r2.1 = Ok ()
  ∧ delivered r1.2 = delivered r2.2
  ∧ stdout r1.2 = stdout s ∧ stdout r2.2 = stdout s.
Proof.
  intros r1 r2. subst r1 r2. rewrite !progress_hook_forwarded. cbn [fst snd].
  repeat split. unfold deliver, register. cbn [delivered progress_callbacks set_progress_callbacks].
  f_equal. destruct (i_id (event_info d)) as [vid'|]; [|done].
  destruct (decide (vid = vid')) as [->|Hne].
  - by rewrite !lookup_insert_eq.
  - by rewrite !lookup_insert_ne.
Qed.
End ProgressHookMore.

(** * Further properties of download_video *)

Section DownloadVideoMore.
Context `{PythonFloats}.

Lemma progress_hook_objects (d : HookEvent) (s : State) :
  _progress_hook d s = (Ok (), deliver (hook_objects (progress_callbacks s) d) s).
Proof. apply progress_hook_forwarded. Qed.

Lemma run_events_objects (events : list HookEvent) (s : State) :
  run_events [self_progress_hook] events s
  = (Ok (), deliver (flat_map (hook_objects (progress_callbacks s)) events) s).
Proof.
  revert s. induction events as [|d events IH]; intros s.
  - simpl. by rewrite deliver_nil.
  - cbn [run_events flat_map]. cbv [mbind M_bind]. rewrite run_hooks_self.
    rewrite progress_hook_objects, IH, deliver_deliver. done.
Qed.

Lemma run_download_objects (ydl : YoutubeDL) (url : string) (format_id : option string)
    (extract_audio : bool) (start_time end_time : option Z) (dir : string) (s : State) :
  run_download ydl (download_ydl_opts dir format_id extract_audio start_time end_time) url s
  = (match (download ydl url).2 with None => Ok () | Some e => Raise e end,
     deliver (flat_map (hook_objects (progress_callbacks s)) (download ydl url).1) s).
Proof.
  unfold run_download. rewrite download_ydl_opts_hooks.
  destruct (download ydl url) as [events outcome]. cbv [mbind M_bind].
  rewrite run_events_objects. by destruct outcome.
Qed.

(** download_video, step by step *)
Lemma download_video_exact (tool : Tool) (url : string) (format_id : option string)
    (extract_audio : bool) (start_time end_time : option Z) (callback : option Callback)
    (s : State) :
  let ydl_opts :=
    download_ydl_opts (downloads_dir s) format_id extract_audio start_time end_time in
  let ydl := tool (length (created s)) ydl_opts in
  let s1 := add_created ydl_opts s in
  download_video tool url format_id extract_audio start_time end_time callback s
  = match extract_info ydl url with
    | Raise e => (download_failed e, s1)
    | Ok None =>
        (download_failed
           (match falsy_result ydl url with
            | PyNone => AttributeError "'NoneType' object has no attribute 'get'"
            | EmptyDict => Exception "Could not get video ID"
            end), s1)
    | Ok (Some info) =>
        match i_id info with
        | Some vid =>
            if str_truthy vid then
              let s2 := match callback with
                        | Some cb => register vid cb s1
                        | None => s1
                        end in
              (match (download ydl url).2 with
               | None => Ok (i_title info)
               | Some e => download_failed e
               end,
               download_finally (Some vid)
                 (deliver (flat_map (hook_objects (progress_callbacks s2))
                             (download ydl url).1) s2))
            else (download_failed (Exception "Could not get video ID"), s1)
        | None => (download_failed (Exception "Could not get video ID"), s1)
        end
    end.
Proof.
  cbv zeta. unfold download_video, download_try.
  cbv [mbind Body_bind run new_YoutubeDL lift].
  destruct (extract_info _ url) as [[info|]|e]; [| |done].
  2: { by destruct (falsy_result _ url). }
  cbv [set_local]. destruct (i_id info) as [vid|]; [|done].
  destruct (str_truthy vid) eqn:Hvid; [|unfold body_raise, download_finally; by rewrite Hvid].
  destruct callback as [cb|]; cbv [modify mret Body_ret];
    rewrite run_download_objects; by destruct (download _ url).2.
Qed.

(** X13: download_video returns the title of the record (absent when the
    record has none) exactly when the tool resolves a non-empty id and its
    download ends normally.  Every failure comes out as one
    Exception("Error downloading video: " + cause): the tool's error from
    extract_info or from download, AttributeError when extract_info returns
    None, or Exception("Could not get video ID") when it returns a dictionary
    whose id is missing or empty, the empty dictionary included; in the last
    two cases no download is started. *)
Theorem download_video_outcome (tool : Tool) (url : string) (format_id : option string)
    (extract_audio : bool) (start_time end_time : option Z) (callback : option Callback)
    (s : State) :
  let ydl := tool (length (created s))
               (download_ydl_opts (downloads_dir s) format_id extract_audio start_time
                  end_time) in
  (download_video tool url format_id extract_audio start_time end_time callback s).1
  = match extract_info ydl url with
    | Raise e => Raise (ExceptionFrom "Error downloading video: " e)
    | Ok None =>
        match falsy_result ydl url with
        | PyNone =>
            Raise (ExceptionFrom "Error downloading video: "
                     (AttributeError "'NoneType' object has no attribute 'get'"))
        | EmptyDict =>
            Raise (ExceptionFrom "Error downloading video: "
                     (Exception "Could not get video ID"))
        end
    | Ok (Some info) =>
        match i_id info with
        | Some vid =>
            if str_truthy vid then
              match (download ydl url).2 with
              | None => Ok (i_title info)
              | Some e => Raise (ExceptionFrom "Error downloading video: " e)
              end
            else Raise (ExceptionFrom "Error downloading video: "
                          (Exception "Could not get video ID"))
        | None => Raise (ExceptionFrom "Error downloading video: "
                           (Exception "Could not get video ID"))
        end
    end.
Proof.
  intros ydl. rewrite download_video_exact. fold ydl.
  destruct (extract_info ydl url) as [[info|]|e]; [| |done].
  2: { by destruct (falsy_result ydl url). }
  destruct (i_id info) as [vid|]; [|done]. by destruct (str_truthy vid).
Qed.

(** The two falsy results of the tool: for [None] the cause is the
    AttributeError of [None.get], for the empty dictionary it is the missing
    identifier. *)
Example download_video_falsy_results :
  let url := "https://www.youtube.com/watch?v=dQw4w9WgXcQ" in
  (@download_video sample_floats empty_tool url None false None None None fresh_service).1
  = Raise (ExceptionFrom "Error downloading video: "
             (AttributeError "'NoneType' object has no attribute 'get'"))
  ∧ (@download_video sample_floats blank_tool url None false None None None fresh_service).1
    = Raise (ExceptionFrom "Error downloading video: " (Exception "Could not get video ID")).
Proof. split; reflexivity. Qed.

(** X14: a download started without a callback still uses and then removes
    a callback that is registered for the same video.  When the registry
    holds an entry for the resolved identifier, the events of the download
    are handed to that callback as for its own download, and after the call
    the entry is gone. *)
Theorem download_video_takes_over (tool : Tool) (url : string) (format_id : option string)
    (extract_audio : bool) (start_time end_time : option Z) (s : State) (vid : string)
    (cb : Callback) :
  let ydl := tool (length (created s))
               (download_ydl_opts (downloads_dir s) format_id extract_audio start_time
                  end_time) in
  let s' := (download_video tool url format_id extract_audio start_time end_time None s).2 in
  resolved_video_id ydl url = Some vid → progress_callbacks s !! vid = Some cb →
  progress_callbacks s' = delete vid (progress_callbacks s)
  ∧ delivered s'
    = (delivered s ++ flat_map (hook_objects (progress_callbacks s)) (download ydl url).1)%list.
Proof.
  intros ydl s' Hres Hcb. subst s'. rewrite download_video_exact. fold ydl.
  unfold resolved_video_id in Hres.
  destruct (extract_info ydl url) as [[info|]|e]; try done.
  destruct (i_id info) as [vid'|]; [|done].
  destruct (str_truthy vid') eqn:Hvid; [|done]. injection Hres as ->.
  cbv zeta. cbn [snd].
  destruct (download_finally_registry vid
              (deliver (flat_map (hook_objects (progress_callbacks
                  (add_created (download_ydl_opts (downloads_dir s) format_id extract_audio
                                  start_time end_time) s))) (download ydl url).1)
                 (add_created (download_ydl_opts (downloads_dir s) format_id extract_audio
                                 start_time end_time) s)) Hvid) as (-> & -> & _).
  done.
Qed.

(** X15: a download without a callback delivers nothing unless somebody
    else is registered.  When no event of the download names an identifier
    that has an entry in the registry, no object is handed to any callback
    and nothing is printed. *)
Theorem download_video_silent (tool : Tool) (url : string) (format_id : option string)
    (extract_audio : bool) (start_time end_time : option Z) (s : State) :
  let ydl := tool (length (created s))
               (download_ydl_opts (downloads_dir s) format_id extract_audio start_time
                  end_time) in
  let s' := (download_video tool url format_id extract_audio start_time end_time None s).2 in
  (∀ d vid, d ∈ (download ydl url).1 → i_id (event_info d) = Some vid →
            progress_callbacks s !! vid = None) →
  delivered s' = delivered s ∧ stdout s' = stdout s.
Proof.
  intros ydl s' Hnone. subst s'. rewrite download_video_exact. fold ydl.
  destruct (extract_info ydl url) as [[info|]|e]; [|done..].
  destruct (i_id info) as [vid|]; [|done].
  destruct (str_truthy vid) eqn:Hvid; [|done].
  cbv zeta. cbn [snd].
  assert (flat_map (hook_objects (progress_callbacks s)) (download ydl url).1 = []) as Hnew.
  { induction ((download ydl url).1) as [|d events IH]; [done|].
    cbn [flat_map]. rewrite IH.
    2: { intros d' vid' Hd'. apply Hnone. by right. }
    unfold hook_objects. destruct (i_id (event_info d)) as [vid'|] eqn:Hid; [|done].
    rewrite (Hnone d vid' (list_elem_of_here _ _) Hid).
    rewrite bool_decide_false by (by intros [? ?]). by rewrite andb_false_r. }
  unfold download_finally. rewrite Hvid. cbn [andb].
  change (progress_callbacks (add_created _ s)) with (progress_callbacks s).
  rewrite Hnew. destruct (bool_decide _); simpl; by rewrite app_nil_r.
Qed.

(** X16: the time range reaches the tool only when both bounds are given.
    The options of the instance download_video creates have download_ranges
    (start, end) and force_keyframes_at_cuts True when start_time and
    end_time are both given, zero included, and neither key when one bound is
    missing; in both modes the output template is the downloads directory
    joined with '%(title)s.%(ext)s' and the one progress hook is the
    service's. *)
Theorem download_video_time_range (tool : Tool) (url : string) (format_id : option string)
    (extract_audio : bool) (start_time end_time : option Z) (callback : option Callback)
    (s : State) :
  ∃ ydl_opts,
    created (download_video tool url format_id extract_audio start_time end_time
               callback s).2 = (created s ++ [ydl_opts])%list
    ∧ opt_download_ranges ydl_opts
      = match start_time, end_time with
        | Some a, Some b => Some (a, b)
        | _, _ => None
        end
    ∧ opt_force_keyframes_at_cuts ydl_opts
      = match start_time, end_time with
        | Some _, Some _ => Some true
        | _, _ => None
        end
    ∧ opt_outtmpl ydl_opts = Some (path_join (downloads_dir s) "%(title)s.%(ext)s")
    ∧ opt_progress_hooks ydl_opts = [self_progress_hook].
Proof.
  exists (download_ydl_opts (downloads_dir s) format_id extract_audio start_time end_time).
  split.
  - rewrite download_video_exact.
    destruct (extract_info _ url) as [[info|]|e]; [|done..].
    destruct (i_id info) as [vid|]; [|done].
    destruct (str_truthy vid) eqn:Hvid; [|done]. cbv zeta. cbn [snd].
    match goal with
    | |- created (download_finally _ ?st) = _ =>
        destruct (download_finally_registry vid st Hvid) as (_ & _ & ->)
    end.
    by destruct callback.
  - unfold download_ydl_opts.
    destruct extract_audio, start_time, end_time; simpl; done.
Qed.
End DownloadVideoMore.

Lemma download_video_takes_over_witness :
  let tool := firing example_events None in
  let url := "https://www.youtube.com/watch?v=dQw4w9WgXcQ" in
  let vid := "dQw4w9WgXcQ" in
  let ydl := tool (length (created listening_service))
               (download_ydl_opts (downloads_dir listening_service) None false None None) in
  let s' := (@download_video sample_floats tool url None false None None None
               listening_service).2 in
  resolved_video_id ydl url = Some vid
  ∧ progress_callbacks listening_service !! vid = Some failing_callback
  ∧ progress_callbacks s' = delete vid (progress_callbacks listening_service)
  ∧ delivered s'
    = (delivered listening_service
       ++ flat_map (@hook_objects sample_floats (progress_callbacks listening_service))
            (download ydl url).1)%list.
Proof.
  intros tool url vid ydl s'. split; [reflexivity|]. split; [reflexivity|].
  apply (@download_video_takes_over sample_floats tool url None false None None
           listening_service vid failing_callback); reflexivity.
Defined.

Lemma download_video_silent_witness :
  let tool := firing example_events None in
  let url := "https://www.youtube.com/watch?v=dQw4w9WgXcQ" in
  let ydl := tool (length (created fresh_service))
               (download_ydl_opts (downloads_dir fresh_service) None false None None) in
  let s' := (@download_video sample_floats tool url None false None None None
               fresh_service).2 in
  (∀ d vid, d ∈ (download ydl url).1 → i_id (event_info d) = Some vid →
            progress_callbacks fresh_service !! vid = None)
  ∧ delivered s' = delivered fresh_service ∧ stdout s' = stdout fresh_service.
Proof.
  intros tool url ydl s'.
  assert (∀ d vid, d ∈ (download ydl url).1 → i_id (event_info d) = Some vid →
                   progress_callbacks fresh_service !! vid = None) as Hnone.
  { intros d vid _ _. reflexivity. }
  split; [exact Hnone|].
  apply (@download_video_silent sample_floats tool url None false None None fresh_service).
  exact Hnone.
Defined.

Lemma progress_hook_other_status_witness :
  d_status error_event ≠ Some "downloading"
  ∧ d_status error_event ≠ Some "finished"
  ∧ @_progress_hook sample_floats error_event listening_service = (Ok (), listening_service).
Proof.
  assert (d_status error_event ≠ Some "downloading") as Hdown by discriminate.
  assert (d_status error_event ≠ Some "finished") as Hfin by discriminate.
  split; [exact Hdown|]. split; [exact Hfin|].
  apply (@progress_hook_other_status sample_floats error_event listening_service Hdown Hfin).
Defined.

Lemma downloading_forwarded_witness :
  let d := estimated_event in
  let s := listening_service in
  let vid := "dQw4w9WgXcQ" in
  let total :=
    match d_total_bytes d with
    | Some n => if number_truthy n then Some n else d_total_bytes_estimate d
    | None => d_total_bytes_estimate d
    end in
  i_id (event_info d) = Some vid ∧ str_truthy vid = true
  ∧ is_Some (progress_callbacks s !! vid) ∧ d_status d = Some "downloading"
  ∧ ((@numbers_validate sample_floats d
      ∧ ∃ p, @_progress_hook sample_floats d s = (Ok (), deliver [p] s)
             ∧ DownloadProgress.status p = "downloading"
             ∧ DownloadProgress.video_id p = vid
             ∧ DownloadProgress.title p = default "Unknown" (i_title (event_info d))
             ∧ @optional_int sample_floats (d_downloaded_bytes d)
               = Some (DownloadProgress.downloaded_bytes p)
             ∧ @optional_int sample_floats total = Some (DownloadProgress.total_bytes p)
             ∧ DownloadProgress.speed p = to_Q <$> d_speed d
             ∧ @optional_int sample_floats (d_eta d) = Some (DownloadProgress.eta p)
             ∧ DownloadProgress.filename p = d_filename d
             ∧ @optional_int sample_floats (d_fragment_index d)
               = Some (DownloadProgress.fragment_index p)
             ∧ @optional_int sample_floats (d_fragment_count d)
               = Some (DownloadProgress.fragment_count p))
     ∨ (¬ @numbers_validate sample_floats d
        ∧ @_progress_hook sample_floats d s = (Ok (), s))).
Proof.
  intros d s vid total.
  assert (is_Some (progress_callbacks s !! vid)) as Hreg by (by eexists).
  split; [reflexivity|]. split; [reflexivity|]. split; [exact Hreg|]. split; [reflexivity|].
  apply (@downloading_forwarded sample_floats d s vid); [reflexivity|reflexivity|exact Hreg|reflexivity].
Defined.

(** The float estimate of the sample event reaches the consumer as the
    integer 4096, under the sample validation of floats. *)
Example estimated_event_total :
  DownloadProgress.total_bytes
    <$> delivered (@_progress_hook sample_floats estimated_event listening_service).2
  = [Some 4096].
Proof. vm_compute. reflexivity. Qed.

(** * The info routes *)

Section Routes.
Context `{PythonFloats} `{ExceptionText}.

Lemma select_formats_error (fs : list RawFormat) (e : exn) :
  select_formats fs = Raise e → e = KeyError "format_id" ∨ e = KeyError "ext".
Proof.
  unfold select_formats. cbv [mbind result_mbind result_bind].
  pose proof (collect_formats_cases fs) as Hcases.
  destruct (collect_formats fs) as [kept|e']; [done|].
  intros [= <-]. by destruct Hcases.
Qed.

Lemma get_video_info_state (tool : Tool) (url : string) (playlist_index : option Z)
    (s : State) :
  (get_video_info tool url playlist_index s).2 = add_created (info_ydl_opts false) s.
Proof.
  unfold get_video_info, try_except. cbv [mbind M_bind new_YoutubeDL lift raise].
  destruct (extract_info _ url) as [[info|]|e]; [|done..].
  destruct (select_formats (default [] (i_formats info))) as [formats|e]; [|done].
  destruct (getitem "id" (i_id info)) as [id|e]; [|done].
  by destruct (VideoInfo.new _ _ _ _ _ _ _ _ _ _).
Qed.

(** X17: the video-info route answers with the service's VideoInfo when
    the service returns one, printing nothing.  When the service raises, the
    route prints one line "Error in get_video_info: ..." and raises an
    HTTPException whose status and detail are one of three fixed pairs (404
    Video not found, 400 Invalid or inaccessible URL, 500 Failed to fetch
    video information), so the text of the error never reaches the caller;
    the status is 404 exactly when that text contains "No video information
    found". *)
Theorem video_info_route_answers (tool : Tool) (url : string) (s : State) :
  let s1 := add_created (info_ydl_opts false) s in
  match (get_video_info tool url None s).1 with
  | Ok video_info => routes.get_video_info tool url s = (Returned video_info, s1)
  | Raise e =>
      ∃ code detail,
        routes.get_video_info tool url s
        = (HTTPException code detail,
           add_stdout (PrintedError "Error in get_video_info: " e) s1)
        ∧ (code, detail) ∈ video_info_errors
        ∧ (code = 404 ↔ contains "No video information found" (exn_str e) = true)
  end.
Proof.
  intros s1. unfold routes.get_video_info.
  pose proof (get_video_info_state tool url None s) as Hstate.
  destruct (get_video_info tool url None s) as [[v|e] s']; simpl in Hstate; subst s'.
  - done.
  - simpl. destruct (contains "No video information found" (exn_str e)).
    + eexists _, _. split; [done|]. split; [set_solver|]. done.
    + destruct (contains "URL is not accessible" (exn_str e)).
      * eexists _, _. split; [done|]. split; [set_solver|]. split; done.
      * eexists _, _. split; [done|]. split; [set_solver|]. split; done.
Qed.

(** X18: what the video-info route answers for the failures of the service
    that do not depend on the text of a tool error.  A falsy result of the
    tool gives 404 Video not found; a record with a format that passes the
    inclusion rule without format_id or ext gives 500 Failed to fetch video
    information, and so does a record without id. *)
Theorem video_info_route_statuses (tool : Tool) (url : string) (s : State) :
  let found := extract_info (tool (length (created s)) (info_ydl_opts false)) url in
  (found = Ok None →
   (routes.get_video_info tool url s).1 = HTTPException 404 "Video not found")
  ∧ (∀ info, found = Ok (Some info) →
       is_Ok (select_formats (default [] (i_formats info))) = false ∨ i_id info = None →
       (routes.get_video_info tool url s).1
       = HTTPException 500 "Failed to fetch video information").
Proof.
  intros found. subst found. split.
  - intros Hfound. unfold routes.get_video_info, get_video_info, try_except.
    cbv [mbind M_bind new_YoutubeDL lift raise]. rewrite Hfound. reflexivity.
  - intros info Hfound Hbad. unfold routes.get_video_info, get_video_info, try_except.
    cbv [mbind M_bind new_YoutubeDL lift raise]. rewrite Hfound.
    destruct (select_formats (default [] (i_formats info))) as [formats|e] eqn:Hsel.
    + destruct Hbad as [Hbad| ->]; [done|]. reflexivity.
    + by destruct (select_formats_error _ _ Hsel) as [-> | ->].
Qed.

(** X19: the playlist-info route never answers with a playlist.  For every
    URL it raises an HTTPException whose status and detail are one of three
    fixed pairs (400 The provided URL is not a playlist, 404 Playlist not
    found, 500 Failed to fetch playlist information), after the same error
    was printed twice, once by the service and once by the route.  A falsy
    result of the tool gives 404 and a record without 'entries' gives 400. *)
Theorem playlist_info_route_answers (tool : Tool) (url : string) (s : State) :
  let found := extract_info (tool (length (created s)) (info_ydl_opts true)) url in
  (∃ e code detail,
     routes.get_playlist_info tool url s
     = (HTTPException code detail,
        add_stdout (PrintedError "Error in get_playlist_info: " e)
          (add_stdout (PrintedError "Error fetching playlist info: " e)
             (add_created (info_ydl_opts true) s)))
     ∧ (code, detail) ∈ playlist_info_errors)
  ∧ (found = Ok None →
     (routes.get_playlist_info tool url s).1 = HTTPException 404 "Playlist not found")
  ∧ (∀ info, found = Ok (Some info) → i_entries info = None →
       (routes.get_playlist_info tool url s).1
       = HTTPException 400 "The provided URL is not a playlist").
Proof.
  intros found. subst found. split; [|split].
  - destruct (get_playlist_info_printed tool url s) as (e & Hrun).
    exists e. unfold routes.get_playlist_info. rewrite Hrun.
    destruct (contains "URL is not a playlist" (exn_str e)).
    + eexists _, _. split; [done|]. set_solver.
    + destruct (contains "No playlist information found" (exn_str e)).
      * eexists _, _. split; [done|]. set_solver.
      * eexists _, _. split; [done|]. set_solver.
  - intros Hfound. unfold routes.get_playlist_info, get_playlist_info, try_except.
    cbv [mbind M_bind new_YoutubeDL lift raise print modify]. rewrite Hfound. reflexivity.
  - intros info Hfound Hentries.
    unfold routes.get_playlist_info, get_playlist_info, try_except.
    cbv [mbind M_bind new_YoutubeDL lift raise print modify]. rewrite Hfound, Hentries.
    reflexivity.
Qed.
End Routes.

Lemma video_info_route_statuses_witness :
  let url := "https://www.youtube.com/watch?v=gone" in
  (extract_info (empty_tool (length (created fresh_service)) (info_ydl_opts false)) url
   = Ok None
   ∧ (@routes.get_video_info sample_floats sample_text empty_tool url fresh_service).1
     = HTTPException 404 "Video not found")
  ∧ (∃ info,
       extract_info (anonymous_tool (length (created fresh_service)) (info_ydl_opts false))
         url = Ok (Some info)
       ∧ (is_Ok (@select_formats sample_floats (default [] (i_formats info))) = false
          ∨ i_id info = None)
       ∧ (@routes.get_video_info sample_floats sample_text anonymous_tool url
            fresh_service).1
         = HTTPException 500 "Failed to fetch video information").
Proof.
  intros url. split.
  - split; [reflexivity|].
    destruct (@video_info_route_statuses sample_floats sample_text empty_tool url
                fresh_service) as [Hnone _].
    apply Hnone. reflexivity.
  - eexists. split; [reflexivity|]. split; [right; reflexivity|].
    destruct (@video_info_route_statuses sample_floats sample_text anonymous_tool url
                fresh_service) as [_ Hbad].
    eapply Hbad; [reflexivity|right; reflexivity].
Defined.

Lemma playlist_info_route_answers_witness :
  let url := "https://www.youtube.com/watch?v=dQw4w9WgXcQ" in
  (extract_info (empty_tool (length (created fresh_service)) (info_ydl_opts true)) url
   = Ok None
   ∧ (@routes.get_playlist_info sample_floats sample_text empty_tool url fresh_service).1
     = HTTPException 404 "Playlist not found")
  ∧ (extract_info (sample_tool (length (created fresh_service)) (info_ydl_opts true)) url
     = Ok (Some sample_info)
     ∧ i_entries sample_info = None
     ∧ (@routes.get_playlist_info sample_floats sample_text sample_tool url
          fresh_service).1
       = HTTPException 400 "The provided URL is not a playlist").
Proof.
  intros url. split.
  - split; [reflexivity|].
    destruct (@playlist_info_route_answers sample_floats sample_text empty_tool url
                fresh_service) as (_ & Hnone & _).
    apply Hnone. reflexivity.
  - split; [reflexivity|]. split; [reflexivity|].
    destruct (@playlist_info_route_answers sample_floats sample_text sample_tool url
                fresh_service) as (_ & _ & Hsingle).
    apply (Hsingle sample_info); reflexivity.
Defined.

(** * The suffix test of the progress hook *)

Section SuffixTest.
Context `{PythonFloats}.

Lemma length_append (p q : string) :
  String.length (p +:+ q) = (String.length p + String.length q)%nat.
Proof. induction p as [|c p IH]; simpl; [done|]. by rewrite IH. Qed.

Lemma substring_all (s : string) : substring 0 (String.length s) s = s.
Proof. induction s as [|c s IH]; simpl; [done|]. by rewrite IH. Qed.

Lemma substring_append (p q : string) :
  substring (String.length p) (String.length q) (p +:+ q) = q.
Proof. induction p as [|c p IH]; simpl; [apply substring_all|done]. Qed.

Lemma substring_split (s : string) (m : nat) :
  (m ≤ String.length s)%nat →
  s = substring 0 m s +:+ substring m (String.length s - m) s.
Proof.
  revert m. induction s as [|c s IH]; intros [|m] Hm; simpl in *; try done; try lia.
  - by rewrite substring_all.
  - transitivity (String c (substring 0 m s +:+ substring m (String.length s - m) s));
      [|reflexivity].
    f_equal. apply IH. lia.
Qed.

Lemma endswith_append (s suffix : string) :
  endswith s suffix = true ↔ ∃ p, s = p +:+ suffix.
Proof.
  unfold endswith. rewrite andb_true_iff, Nat.leb_le, String.eqb_eq. split.
  - intros [Hlen Hsub].
    exists (substring 0 (String.length s - String.length suffix) s).
    pose proof (substring_split s (String.length s - String.length suffix)) as Hsplit.
    replace (String.length s - (String.length s - String.length suffix))%nat
      with (String.length suffix) in Hsplit by lia.
    rewrite Hsub in Hsplit. apply Hsplit. lia.
  - intros [p ->]. rewrite length_append. split; [lia|].
    replace (String.length p + String.length suffix - String.length suffix)%nat
      with (String.length p) by lia.
    apply substring_append.
Qed.

(** X20: which 'finished' events reach the consumer.  For an event with
    status 'finished' whose identifier has a registered callback, the hook
    hands nothing over exactly when the filename (the empty string when the
    event has none) is some text followed by .webm, .m4a, .mkv or .f;
    otherwise it hands over one object with status 'finished', the
    identifier, the title of the info dict ('Unknown' when there is none),
    the filename, and no byte counts, speed, eta or fragment counters. *)
Theorem finished_suppressed_by_suffix (d : HookEvent) (s : State) (vid : string) :
  i_id (event_info d) = Some vid → str_truthy vid = true →
  is_Some (progress_callbacks s !! vid) → d_status d = Some "finished" →
  let filename := default EmptyString (d_filename d) in
  ((∃ p suffix, suffix ∈ [".webm"; ".m4a"; ".mkv"; ".f"] ∧ filename = p +:+ suffix)
   ∧ _progress_hook d s = (Ok (), s))
  ∨ ((¬ ∃ p suffix, suffix ∈ [".webm"; ".m4a"; ".mkv"; ".f"] ∧ filename = p +:+ suffix)
     ∧ _progress_hook d s
       = (Ok (),
          deliver
            [{| DownloadProgress.status := "finished";
                DownloadProgress.video_id := vid;
                DownloadProgress.title := default "Unknown" (i_title (event_info d));
                DownloadProgress.downloaded_bytes := None;
                DownloadProgress.total_bytes := None;
                DownloadProgress.speed := None;
                DownloadProgress.eta := None;
                DownloadProgress.filename := Some filename;
                DownloadProgress.playlist_index := None;
                DownloadProgress.error := None;
                DownloadProgress.fragment_index := None;
                DownloadProgress.fragment_count := None |}] s)).
Proof.
  intros Hid Hvid Hreg Hst filename.
  rewrite progress_hook_forwarded, Hid, Hvid. rewrite bool_decide_true by done.
  cbn [andb]. unfold forwarded_object. rewrite Hst.
  cbn [String.eqb Ascii.eqb Bool.eqb]. cbv zeta. fold filename.
  destruct (endswith_any filename intermediate_suffixes) eqn:Hends.
  - left. split; [|by rewrite deliver_nil].
    unfold endswith_any in Hends. apply existsb_exists in Hends as (suffix & Hin & Hsuf).
    apply endswith_append in Hsuf as [p Hp]. exists p, suffix.
    split; [by apply list_elem_of_In|done].
  - right. split; [|done].
    intros (p & suffix & Hin & Hp).
    assert (endswith_any filename intermediate_suffixes = true) as Htrue; [|congruence].
    unfold endswith_any. apply existsb_exists. exists suffix.
    split; [by apply list_elem_of_In|]. apply endswith_append. eauto.
Qed.
End SuffixTest.

Lemma finished_suppressed_by_suffix_witness :
  let d := finished "Sample.f137.mp4" in
  let s := listening_service in
  let vid := "dQw4w9WgXcQ" in
  let filename := default EmptyString (d_filename d) in
  i_id (event_info d) = Some vid ∧ str_truthy vid = true
  ∧ is_Some (progress_callbacks s !! vid) ∧ d_status d = Some "finished"
  ∧ (((∃ p suffix, suffix ∈ [".webm"; ".m4a"; ".mkv"; ".f"] ∧ filename = p +:+ suffix)
      ∧ @_progress_hook sample_floats d s = (Ok (), s))
     ∨ ((¬ ∃ p suffix, suffix ∈ [".webm"; ".m4a"; ".mkv"; ".f"] ∧ filename = p +:+ suffix)
        ∧ @_progress_hook sample_floats d s
          = (Ok (),
             deliver
               [{| DownloadProgress.status := "finished";
                   DownloadProgress.video_id := vid;
                   DownloadProgress.title := default "Unknown" (i_title (event_info d));
                   DownloadProgress.downloaded_bytes := None;
                   DownloadProgress.total_bytes := None;
                   DownloadProgress.speed := None;
                   DownloadProgress.eta := None;
                   DownloadProgress.filename := Some filename;
                   DownloadProgress.playlist_index := None;
                   DownloadProgress.error := None;
                   DownloadProgress.fragment_index := None;
                   DownloadProgress.fragment_count := None |}] s))).
Proof.
  intros d s vid filename.
  assert (is_Some (progress_callbacks s !! vid)) as Hreg by (by eexists).
  split; [reflexivity|]. split; [reflexivity|]. split; [exact Hreg|]. split; [reflexivity|].
  apply (@finished_suppressed_by_suffix sample_floats d s vid);
    [reflexivity|reflexivity|exact Hreg|reflexivity].
Defined.

(** * The 'finished' reports of a download *)

Lemma append_assoc (a b c : string) : (a +:+ b) +:+ c = a +:+ (b +:+ c).
Proof.
  induction a as [|x a IH]; [done|].
  change (String x ((a +:+ b) +:+ c) = String x (a +:+ (b +:+ c))). by rewrite IH.
Qed.

Lemma append_last_char (a b : string) (c c' : Ascii.ascii) :
  a +:+ String c EmptyString = b +:+ String c' EmptyString → c = c'.
Proof.
  revert b. induction a as [|x a IH]; intros [|y b]; simpl; intros Heq.
  - by injection Heq.
  - injection Heq as _ Heq. by destruct b.
  - injection Heq as _ Heq. by destruct a.
  - injection Heq as _ Heq. by apply (IH b).
Qed.

(** Two strings that end in different characters: neither ends with the
    other. *)
Lemma endswith_other_last (s suffix : string) (c c' : Ascii.ascii) :
  c ≠ c' → endswith (s +:+ String c EmptyString) (suffix +:+ String c' EmptyString) = false.
Proof.
  intros Hne. destruct (endswith _ _) eqn:Hends; [|done].
  apply endswith_append in Hends as [p Hp]. rewrite <- append_assoc in Hp.
  by apply append_last_char in Hp.
Qed.

(** A name that ends in .mp4 has none of the suffixes the hook skips. *)
Lemma mp4_passes_suffix_test (stem : string) :
  endswith_any (stem +:+ ".mp4") intermediate_suffixes = false.
Proof.
  change (stem +:+ ".mp4") with (stem +:+ (".mp" +:+ "4")).
  rewrite <- append_assoc. unfold endswith_any, intermediate_suffixes. cbn [existsb].
  change ".webm" with (".web" +:+ "m"). change ".m4a" with (".m4" +:+ "a").
  change ".mkv" with (".mk" +:+ "v"). change ".f" with ("." +:+ "f").
  by rewrite !endswith_other_last.
Qed.

(** C4 (the code departs from the claim): the hook decides by the end of
    the filename alone and keeps no record per item.  With the default format the tool
    downloads a video part and an audio part and merges them afterwards; the
    one 'finished' object the consumer receives carries the video part
    Sample.f137.mp4, a source container before the merge, and none carries
    the merged file.  This is so for every part whose name ends in .mp4: the
    suffix test lets it pass, the '.f' of the test never matching a name
    that goes on with the format and the extension.  And when the tool
    reports two files whose names have none of the four suffixes, the
    consumer receives two 'finished' objects for the one item. *)
Theorem finished_reports_premerge_part :
  let url := "https://www.youtube.com/watch?v=dQw4w9WgXcQ" in
  let received events format_id :=
    delivered (@download_video sample_floats (firing events None) url format_id false
                 None None (Some quiet_callback) fresh_service).2 in
  finished_filenames (received premerge_events None) = [Some "Sample.f137.mp4"]
  ∧ (∀ stem tag : string,
       endswith_any (stem +:+ ".f" +:+ tag +:+ ".mp4") intermediate_suffixes = false)
  ∧ finished_filenames (received two_files (Some "18,17"))
    = [Some "Sample.mp4"; Some "Sample.3gp"]
  ∧ ¬ finished_at_most_once.
Proof.
  intros url received. split; [vm_compute; reflexivity|]. split; [|split].
  - intros stem tag. rewrite <- !append_assoc. apply mp4_passes_suffix_test.
  - vm_compute. reflexivity.
  - intros Hclaim.
    specialize (Hclaim sample_floats (firing two_files None) url (Some "18,17") false
                  None None quiet_callback fresh_service).
    vm_compute in Hclaim. lia.
Qed.

(** * The substring test of the routes *)

Lemma prefix_append (needle haystack : string) :
  String.prefix needle haystack = true ↔ ∃ rest, haystack = needle +:+ rest.
Proof.
  revert haystack. induction needle as [|a needle IH]; intros haystack.
  - split; [intros _; by exists haystack|intros _; by destruct haystack].
  - destruct haystack as [|b haystack]; simpl.
    + split; [done|intros [rest Hrest]; done].
    + destruct (Ascii.ascii_dec a b) as [->|Hne].
      * rewrite IH. split; intros [rest Hrest]; exists rest.
        -- by rewrite Hrest.
        -- by injection Hrest.
      * split; [done|]. intros [rest Hrest]. injection Hrest as Hab _. done.
Qed.

Lemma contains_append (needle haystack : string) :
  contains needle haystack = true ↔ ∃ before after, haystack = before +:+ needle +:+ after.
Proof.
  split.
  - induction haystack as [|c haystack IH]; cbn [contains]; rewrite orb_true_iff.
    + intros [Hp|?]; [|done]. apply prefix_append in Hp as [rest Hrest].
      by exists EmptyString, rest.
    + intros [Hp|Hc].
      * apply prefix_append in Hp as [rest Hrest]. by exists EmptyString, rest.
      * destruct (IH Hc) as (before & after & ->). by exists (String c before), after.
  - intros (before & after & ->). induction before as [|c before IH].
    + assert (String.prefix needle (needle +:+ after) = true) as Hp.
      { apply prefix_append. eauto. }
      change (EmptyString +:+ needle +:+ after) with (needle +:+ after).
      destruct (needle +:+ after); cbn [contains]; by rewrite Hp.
    + change (String c before +:+ needle +:+ after)
        with (String c (before +:+ needle +:+ after)).
      cbn [contains]. rewrite IH. apply orb_true_r.
Qed.
